(** * SimpleMicroservices: the in-memory CRUD handlers of [main.py]

    A shallow embedding of the four resource stores ([persons],
    [family_histories], [account_balances], [addresses]) and of the
    create / list / get / patch handlers that FastAPI dispatches to,
    together with the Pydantic models the handlers build and dump.

    - A Python [dict] is a [gmap]; the keyword dictionaries produced by
      [model_dump] are [gmap string value].
    - The module-level databases, the clock behind [datetime.utcnow] and
      the generator behind [uuid4] form the [World]; a handler is a
      function from a world to an outcome and a world.
    - A raised exception is an outcome; the world it leaves behind is the
      one reached when it was raised. *)

From Stdlib Require Import ZArith NArith String Ascii List.
From Stdlib Require Import Floats.PrimFloat.
From Stdlib Require Import Floats.SpecFloat Floats.FloatAxioms.
From stdpp Require Import base option list strings gmap.

Open Scope string_scope.

(** ** Scalar data *)

(** [uuid.UUID]: a 128-bit number, kept as its integer value. *)
Abbreviation UUID := N.

(** [datetime.datetime] (naive, UTC): microseconds since the epoch. *)
Abbreviation datetime := Z.

(** [datetime.date]. *)
Record date := Date { year : N; month : N; day : N }.

Definition digit (n : N) : ascii := ascii_of_N (48 + n mod 10).

Definition pad2 (n : N) : string :=
  String (digit (n / 10)) (String (digit n) EmptyString).

Definition pad4 (n : N) : string :=
  String (digit (n / 1000)) (String (digit (n / 100)) (pad2 n)).

(** [str(d)] for a [date]: the ISO form [YYYY-MM-DD]. *)
Definition date_str (d : date) : string :=
  pad4 (year d) ++ "-" ++ pad2 (month d) ++ "-" ++ pad2 (day d).

(** [str(x)] for an [Optional[date]]: [str(None)] is the word [None]. *)
Definition str_opt_date (x : option date) : string :=
  match x with
  | Some d => date_str d
  | None => "None"
  end.

(** ** Python values held by keyword dictionaries *)

#[warnings="-register-all"]
Inductive value :=
| VNone
| VStr (s : string)
| VUuid (u : UUID)
| VFloat (x : float)
| VDatetime (t : datetime)
| VDate (d : date)
| VList (xs : list value)
| VDict (d : gmap string value).

Abbreviation kwargs := (gmap string value).

Definition opt_str_value (x : option string) : value :=
  match x with
  | Some s => VStr s
  | None => VNone
  end.

Definition opt_float_value (x : option float) : value :=
  match x with
  | Some q => VFloat q
  | None => VNone
  end.

Definition opt_date_value (x : option date) : value :=
  match x with
  | Some d => VDate d
  | None => VNone
  end.

(** [d.update(other)]: the keys of [other] win. *)
Definition dict_update (d other : kwargs) : kwargs := other ∪ d.

(** What [model_dump(exclude_unset=True)] keeps of a full dump: the fields
    recorded in [model_fields_set]. *)
Definition exclude_unset (fields_set : gset string) (dump : kwargs) : kwargs :=
  filter (λ kv, kv.1 ∈ fields_set) dump.

(** ** Exceptions and outcomes *)

Inductive exn :=
| HTTPException (status_code : Z) (detail : string)
| ValidationError (title : string)
| KeyError (key : UUID)
| OSError (errno : Z) (strerror : string).

Inductive outcome (A : Type) :=
| Returned (a : A)
| Raised (e : exn).
Arguments Returned {A} a.
Arguments Raised {A} e.

(** ** The environment behind the default factories

    [datetime.utcnow] and [uuid4] read the outside world.  The [n]-th call
    of each returns the [n]-th reading of its source; the counters record
    how many readings were consumed. *)

Record Env := mkEnv {
  utcnow_src : nat → datetime;
  utcnow_calls : nat;
  uuid4_src : nat → UUID;
  uuid4_calls : nat
}.

(** ** Computations: state passing with exceptions *)

Definition M (S A : Type) : Type := S → outcome A * S.

#[global] Instance M_ret {S} : MRet (M S) := λ A a s, (Returned a, s).

#[global] Instance M_bind {S} : MBind (M S) := λ A B f m s,
  match m s with
  | (Returned a, s') => f a s'
  | (Raised e, s') => (Raised e, s')
  end.

Definition raise {S A} (e : exn) : M S A := λ s, (Raised e, s).

Definition gets {S A} (f : S → A) : M S A := λ s, (Returned (f s), s).

Definition modify {S} (f : S → S) : M S unit := λ s, (Returned tt, f s).

Definition utcnow : M Env datetime := λ e,
  (Returned (utcnow_src e (utcnow_calls e)),
   mkEnv (utcnow_src e) (S (utcnow_calls e)) (uuid4_src e) (uuid4_calls e)).

Definition uuid4 : M Env UUID := λ e,
  (Returned (uuid4_src e (uuid4_calls e)),
   mkEnv (utcnow_src e) (utcnow_calls e) (uuid4_src e) (S (uuid4_calls e))).

(** ** Field validation

    A model constructor looks every declared field up in its keyword
    arguments, in declaration order.  A missing key takes the field's
    default (calling the default factory, if that is what the field has);
    a present key is validated against the field's type.  Errors are
    collected ([None] below) and raised once all fields have been seen, so
    a factory of a later field still runs.  Keys that name no field are
    ignored.  The values reaching the constructors in [main.py] all come
    from [model_dump], which yields native objects; a value of a kind
    that the dump of no such field yields is recorded as an error. *)

(** [UUID = Field(default_factory=uuid4)] *)
Definition field_uuid (k : string) (kw : kwargs) : M Env (option UUID) :=
  match kw !! k with
  | None => u ← uuid4; mret (Some u)
  | Some (VUuid u) => mret (Some u)
  | Some _ => mret None
  end.

(** [datetime = Field(default_factory=datetime.utcnow)] *)
Definition field_datetime (k : string) (kw : kwargs) : M Env (option datetime) :=
  match kw !! k with
  | None => t ← utcnow; mret (Some t)
  | Some (VDatetime t) => mret (Some t)
  | Some _ => mret None
  end.

(** [Optional[str] = Field(None)] *)
Definition field_opt_str (k : string) (kw : kwargs) : option (option string) :=
  match kw !! k with
  | None => Some None
  | Some VNone => Some None
  | Some (VStr s) => Some (Some s)
  | Some _ => None
  end.

(** [Optional[date] = Field(None)] *)
Definition field_opt_date (k : string) (kw : kwargs) : option (option date) :=
  match kw !! k with
  | None => Some None
  | Some VNone => Some None
  | Some (VDate d) => Some (Some d)
  | Some _ => None
  end.

(** [float = Field(None)]: the default [None] is taken as it is (defaults
    are not validated), but a key that is present must hold a float. *)
Definition field_float_default_none (k : string) (kw : kwargs)
  : option (option float) :=
  match kw !! k with
  | None => Some None
  | Some (VFloat q) => Some (Some q)
  | Some _ => None
  end.

(** Raise the collected errors, or hand the model over. *)
Definition validated {A} (title : string) (m : option A) : M Env A :=
  match m with
  | Some a => mret a
  | None => raise (ValidationError title)
  end.

(** ** models/family_history.py *)

(** [FamilyHistoryCreate(FamilyHistoryBase)]: the fields of the base class,
    [id] first.  The [id] the handler sees is the client's or, when the
    body had none, the one [uuid4] produced while the body was parsed. *)
Module FamilyHistoryCreate.
Record t := mk {
  id : UUID;
  father : option string;
  mother : option string;
  sister : option string;
  brother : option string
}.

Definition model_dump (m : t) : kwargs :=
  {[ "id" := VUuid (id m);
     "father" := opt_str_value (father m);
     "mother" := opt_str_value (mother m);
     "sister" := opt_str_value (sister m);
     "brother" := opt_str_value (brother m) ]}.
End FamilyHistoryCreate.

(** [FamilyHistoryUpdate(FamilyHistoryBase)]: it inherits [id] from the
    base class and declares the four narrative fields again.
    [model_fields_set] names the fields the request body provided. *)
Module FamilyHistoryUpdate.
Record t := mk {
  id : UUID;
  father : option string;
  mother : option string;
  sister : option string;
  brother : option string;
  model_fields_set : gset string
}.

Definition model_dump (m : t) : kwargs :=
  {[ "id" := VUuid (id m);
     "father" := opt_str_value (father m);
     "mother" := opt_str_value (mother m);
     "sister" := opt_str_value (sister m);
     "brother" := opt_str_value (brother m) ]}.

Definition model_dump_exclude_unset (m : t) : kwargs :=
  exclude_unset (model_fields_set m) (model_dump m).
End FamilyHistoryUpdate.

(** [FamilyHistoryRead(FamilyHistoryBase)]: the base fields and the two
    timestamps. *)
Module FamilyHistoryRead.
Record t := mk {
  id : UUID;
  father : option string;
  mother : option string;
  sister : option string;
  brother : option string;
  created_at : datetime;
  updated_at : datetime
}.

Definition model_dump (m : t) : kwargs :=
  {[ "id" := VUuid (id m);
     "father" := opt_str_value (father m);
     "mother" := opt_str_value (mother m);
     "sister" := opt_str_value (sister m);
     "brother" := opt_str_value (brother m);
     "created_at" := VDatetime (created_at m);
     "updated_at" := VDatetime (updated_at m) ]}.

(** The constructor called as [FamilyHistoryRead] on the keywords [kw]. *)
Definition init (kw : kwargs) : M Env t :=
  id ← field_uuid "id" kw;
  let father := field_opt_str "father" kw in
  let mother := field_opt_str "mother" kw in
  let sister := field_opt_str "sister" kw in
  let brother := field_opt_str "brother" kw in
  created_at ← field_datetime "created_at" kw;
  updated_at ← field_datetime "updated_at" kw;
  validated "FamilyHistoryRead"
    (id ← id; father ← father; mother ← mother; sister ← sister;
     brother ← brother; created_at ← created_at; updated_at ← updated_at;
     Some (mk id father mother sister brother created_at updated_at)).
End FamilyHistoryRead.


(** ** models/account_balance.py *)

(** [AccountBalanceCreate(AccountBalanceBase)].  The base class declares
    [account_balance: float = Field(None, ...)]: a body without the field
    is accepted and leaves the attribute at its default [None]; a body
    with the field carries a float. *)
Module AccountBalanceCreate.
Record t := mk {
  id : UUID;
  account_balance : option float
}.

Definition model_dump (m : t) : kwargs :=
  {[ "id" := VUuid (id m);
     "account_balance" := opt_float_value (account_balance m) ]}.
End AccountBalanceCreate.

(** [AccountBalanceUpdate(AccountBalanceBase)]: [id] is inherited,
    [account_balance] becomes [Optional[float]]. *)
Module AccountBalanceUpdate.
Record t := mk {
  id : UUID;
  account_balance : option float;
  model_fields_set : gset string
}.

Definition model_dump (m : t) : kwargs :=
  {[ "id" := VUuid (id m);
     "account_balance" := opt_float_value (account_balance m) ]}.

Definition model_dump_exclude_unset (m : t) : kwargs :=
  exclude_unset (model_fields_set m) (model_dump m).
End AccountBalanceUpdate.

(** [AccountBalanceRead(AccountBalanceBase)]. *)
Module AccountBalanceRead.
Record t := mk {
  id : UUID;
  account_balance : option float;
  created_at : datetime;
  updated_at : datetime
}.

Definition model_dump (m : t) : kwargs :=
  {[ "id" := VUuid (id m);
     "account_balance" := opt_float_value (account_balance m);
     "created_at" := VDatetime (created_at m);
     "updated_at" := VDatetime (updated_at m) ]}.

(** The constructor called as [AccountBalanceRead] on the keywords [kw]. *)
Definition init (kw : kwargs) : M Env t :=
  id ← field_uuid "id" kw;
  let account_balance := field_float_default_none "account_balance" kw in
  created_at ← field_datetime "created_at" kw;
  updated_at ← field_datetime "updated_at" kw;
  validated "AccountBalanceRead"
    (id ← id; account_balance ← account_balance;
     created_at ← created_at; updated_at ← updated_at;
     Some (mk id account_balance created_at updated_at)).
End AccountBalanceRead.

(** ** models/address.py *)

(** Modelled from the spec: [models/address.py] is not among the sources.
    The spec gives an Address an identifier (generated at creation when
    the client suggests none), the payload fields street, city, state,
    postal_code and country, and, on the Read representation only, the
    two timestamps; a partial update carries the payload fields, each
    optional, and the identifier is immutable.  The payload fields are
    taken as nullable strings, as those of a family history are.

    [AddressBase] is the Address value that a Person embeds: the payload
    fields.  A field that was not provided holds its default [None], so
    dropping the unset keys from the dump of such a value and validating
    the dump again gives the value back; the nested dump is therefore
    taken in full in either mode. *)
Module AddressBase.
Record t := mk {
  street : option string;
  city : option string;
  state : option string;
  postal_code : option string;
  country : option string
}.

Definition model_dump (m : t) : kwargs :=
  {[ "street" := opt_str_value (street m);
     "city" := opt_str_value (city m);
     "state" := opt_str_value (state m);
     "postal_code" := opt_str_value (postal_code m);
     "country" := opt_str_value (country m) ]}.

(** Validation of a dictionary against the model, errors collected. *)
Definition validate (kw : kwargs) : option t :=
  street ← field_opt_str "street" kw;
  city ← field_opt_str "city" kw;
  state ← field_opt_str "state" kw;
  postal_code ← field_opt_str "postal_code" kw;
  country ← field_opt_str "country" kw;
  Some (mk street city state postal_code country).
End AddressBase.

(** Modelled from the spec: the creation payload of an Address (see
    [AddressBase]): the identifier, the client's or the one generated
    while the body was parsed, and the payload fields. *)
Module AddressCreate.
Record t := mk {
  id : UUID;
  street : option string;
  city : option string;
  state : option string;
  postal_code : option string;
  country : option string
}.

Definition model_dump (m : t) : kwargs :=
  {[ "id" := VUuid (id m);
     "street" := opt_str_value (street m);
     "city" := opt_str_value (city m);
     "state" := opt_str_value (state m);
     "postal_code" := opt_str_value (postal_code m);
     "country" := opt_str_value (country m) ]}.
End AddressCreate.

(** Modelled from the spec: the partial update of an Address, its payload
    fields only (see [AddressBase]). *)
Module AddressUpdate.
Record t := mk {
  street : option string;
  city : option string;
  state : option string;
  postal_code : option string;
  country : option string;
  model_fields_set : gset string
}.

Definition model_dump (m : t) : kwargs :=
  {[ "street" := opt_str_value (street m);
     "city" := opt_str_value (city m);
     "state" := opt_str_value (state m);
     "postal_code" := opt_str_value (postal_code m);
     "country" := opt_str_value (country m) ]}.

Definition model_dump_exclude_unset (m : t) : kwargs :=
  exclude_unset (model_fields_set m) (model_dump m).
End AddressUpdate.

(** Modelled from the spec: the Read representation of an Address (see
    [AddressBase]). *)
Module AddressRead.
Record t := mk {
  id : UUID;
  street : option string;
  city : option string;
  state : option string;
  postal_code : option string;
  country : option string;
  created_at : datetime;
  updated_at : datetime
}.

Definition model_dump (m : t) : kwargs :=
  {[ "id" := VUuid (id m);
     "street" := opt_str_value (street m);
     "city" := opt_str_value (city m);
     "state" := opt_str_value (state m);
     "postal_code" := opt_str_value (postal_code m);
     "country" := opt_str_value (country m);
     "created_at" := VDatetime (created_at m);
     "updated_at" := VDatetime (updated_at m) ]}.

(** The constructor called as [AddressRead] on the keywords [kw]. *)
Definition init (kw : kwargs) : M Env t :=
  id ← field_uuid "id" kw;
  let street := field_opt_str "street" kw in
  let city := field_opt_str "city" kw in
  let state := field_opt_str "state" kw in
  let postal_code := field_opt_str "postal_code" kw in
  let country := field_opt_str "country" kw in
  created_at ← field_datetime "created_at" kw;
  updated_at ← field_datetime "updated_at" kw;
  validated "AddressRead"
    (id ← id; street ← street; city ← city; state ← state;
     postal_code ← postal_code; country ← country;
     created_at ← created_at; updated_at ← updated_at;
     Some (mk id street city state postal_code country created_at updated_at)).
End AddressRead.


(** ** models/person.py *)

(** The dump of an embedded address list: nested models are dumped to
    dictionaries. *)
Definition addresses_value (l : list AddressBase.t) : value :=
  VList ((λ a, VDict (AddressBase.model_dump a)) <$> l).

Fixpoint validate_addresses (xs : list value) : option (list AddressBase.t) :=
  match xs with
  | [] => Some []
  | x :: xs =>
      let a := match x with
               | VDict d => AddressBase.validate d
               | _ => None
               end in
      let rest := validate_addresses xs in
      a ← a; rest ← rest; Some (a :: rest)
  end.

(** A list-of-addresses field whose default is the empty list. *)
Definition field_addresses (k : string) (kw : kwargs)
  : option (list AddressBase.t) :=
  match kw !! k with
  | None => Some []
  | Some (VList xs) => validate_addresses xs
  | Some _ => None
  end.

(** Modelled from the spec: [models/person.py] is not among the sources.
    The spec gives a Person an identifier, identity fields (the list
    filters name them: uni, first_name, last_name, email, phone and
    birth_date, a date) and an embedded ordered list of Address values;
    the Read representation adds the two timestamps, and a partial update
    carries the payload fields, each optional.  The scalar fields are
    taken as nullable. *)
Module PersonCreate.
Record t := mk {
  id : UUID;
  uni : option string;
  first_name : option string;
  last_name : option string;
  email : option string;
  phone : option string;
  birth_date : option date;
  addresses : list AddressBase.t
}.

Definition model_dump (m : t) : kwargs :=
  {[ "id" := VUuid (id m);
     "uni" := opt_str_value (uni m);
     "first_name" := opt_str_value (first_name m);
     "last_name" := opt_str_value (last_name m);
     "email" := opt_str_value (email m);
     "phone" := opt_str_value (phone m);
     "birth_date" := opt_date_value (birth_date m);
     "addresses" := addresses_value (addresses m) ]}.
End PersonCreate.

(** Modelled from the spec: the partial update of a Person, its payload
    fields only (see [PersonCreate]). *)
Module PersonUpdate.
Record t := mk {
  uni : option string;
  first_name : option string;
  last_name : option string;
  email : option string;
  phone : option string;
  birth_date : option date;
  addresses : list AddressBase.t;
  model_fields_set : gset string
}.

Definition model_dump (m : t) : kwargs :=
  {[ "uni" := opt_str_value (uni m);
     "first_name" := opt_str_value (first_name m);
     "last_name" := opt_str_value (last_name m);
     "email" := opt_str_value (email m);
     "phone" := opt_str_value (phone m);
     "birth_date" := opt_date_value (birth_date m);
     "addresses" := addresses_value (addresses m) ]}.

Definition model_dump_exclude_unset (m : t) : kwargs :=
  exclude_unset (model_fields_set m) (model_dump m).
End PersonUpdate.

(** Modelled from the spec: the Read representation of a Person (see
    [PersonCreate]). *)
Module PersonRead.
Record t := mk {
  id : UUID;
  uni : option string;
  first_name : option string;
  last_name : option string;
  email : option string;
  phone : option string;
  birth_date : option date;
  addresses : list AddressBase.t;
  created_at : datetime;
  updated_at : datetime
}.

Definition model_dump (m : t) : kwargs :=
  {[ "id" := VUuid (id m);
     "uni" := opt_str_value (uni m);
     "first_name" := opt_str_value (first_name m);
     "last_name" := opt_str_value (last_name m);
     "email" := opt_str_value (email m);
     "phone" := opt_str_value (phone m);
     "birth_date" := opt_date_value (birth_date m);
     "addresses" := addresses_value (addresses m);
     "created_at" := VDatetime (created_at m);
     "updated_at" := VDatetime (updated_at m) ]}.

(** The constructor called as [PersonRead] on the keywords [kw]. *)
Definition init (kw : kwargs) : M Env t :=
  id ← field_uuid "id" kw;
  let uni := field_opt_str "uni" kw in
  let first_name := field_opt_str "first_name" kw in
  let last_name := field_opt_str "last_name" kw in
  let email := field_opt_str "email" kw in
  let phone := field_opt_str "phone" kw in
  let birth_date := field_opt_date "birth_date" kw in
  let addresses := field_addresses "addresses" kw in
  created_at ← field_datetime "created_at" kw;
  updated_at ← field_datetime "updated_at" kw;
  validated "PersonRead"
    (id ← id; uni ← uni; first_name ← first_name; last_name ← last_name;
     email ← email; phone ← phone; birth_date ← birth_date;
     addresses ← addresses;
     created_at ← created_at; updated_at ← updated_at;
     Some (mk id uni first_name last_name email phone birth_date addresses
              created_at updated_at)).
End PersonRead.

(** ** main.py: the in-memory databases *)

Record World := mkWorld {
  persons : gmap UUID PersonRead.t;
  family_histories : gmap UUID FamilyHistoryRead.t;
  account_balances : gmap UUID AccountBalanceRead.t;
  addresses : gmap UUID AddressRead.t;
  env : Env
}.

Definition set_persons (d : gmap UUID PersonRead.t) (w : World) : World :=
  mkWorld d (family_histories w) (account_balances w) (addresses w) (env w).

Definition set_family_histories (d : gmap UUID FamilyHistoryRead.t)
  (w : World) : World :=
  mkWorld (persons w) d (account_balances w) (addresses w) (env w).

Definition set_account_balances (d : gmap UUID AccountBalanceRead.t)
  (w : World) : World :=
  mkWorld (persons w) (family_histories w) d (addresses w) (env w).

Definition set_addresses (d : gmap UUID AddressRead.t) (w : World) : World :=
  mkWorld (persons w) (family_histories w) (account_balances w) d (env w).

Definition set_env (e : Env) (w : World) : World :=
  mkWorld (persons w) (family_histories w) (account_balances w) (addresses w) e.

(** A module-level dictionary: how to read it off the world and how to
    put a new content in its place. *)
Record db (V : Type) := Db {
  db_get : World → gmap UUID V;
  db_set : gmap UUID V → World → World
}.
Arguments Db {V} db_get db_set.
Arguments db_get {V} d w.
Arguments db_set {V} d m w.

Definition persons_db := Db persons set_persons.
Definition family_histories_db := Db family_histories set_family_histories.
Definition account_balances_db := Db account_balances set_account_balances.
Definition addresses_db := Db addresses set_addresses.

(** A constructor runs against the environment of the world. *)
Definition construct {A} (c : M Env A) : M World A := λ w,
  let '(r, e) := c (env w) in (r, set_env e w).

(** [k in d] *)
Definition contains {V} (d : db V) (k : UUID) : M World bool :=
  gets (λ w, bool_decide (is_Some (db_get d w !! k))).

(** [d[k]] as an expression: [KeyError] on a missing key. *)
Definition getitem {V} (d : db V) (k : UUID) : M World V := λ w,
  match db_get d w !! k with
  | Some v => (Returned v, w)
  | None => (Raised (KeyError k), w)
  end.

(** [d[k] = v] *)
Definition setitem {V} (d : db V) (k : UUID) (v : V) : M World unit :=
  modify (λ w, db_set d (<[k := v]> (db_get d w)) w).

(** [list(d.values())].  Python lists the values in insertion order, the
    map in the order of its keys: the order of a listing is not that of
    the code.  The handlers only filter this list, and every statement
    below about a listing is about its members, or relative to the
    listing without filters, and holds whatever the order of the values. *)
Definition values {V} (d : db V) : M World (list V) :=
  gets (λ w, (map_to_list (db_get d w)).*2).

(** ** main.py: Family History endpoints *)

Definition create_family_history (family_history : FamilyHistoryCreate.t)
  : M World FamilyHistoryRead.t :=
  present ← contains family_histories_db (FamilyHistoryCreate.id family_history);
  if (present : bool) then
    raise (HTTPException 400 "Family History with this ID already exists")
  else
    history_read ← construct
      (FamilyHistoryRead.init (FamilyHistoryCreate.model_dump family_history));
    setitem family_histories_db (FamilyHistoryRead.id history_read) history_read;;
    getitem family_histories_db (FamilyHistoryRead.id history_read).

Definition get_family_histories (father mother sister brother : option string)
  : M World (list FamilyHistoryRead.t) :=
  results ← values family_histories_db;
  let results :=
    match father with
    | Some father => filter (λ p, FamilyHistoryRead.father p = Some father) results
    | None => results
    end in
  let results :=
    match mother with
    | Some mother => filter (λ p, FamilyHistoryRead.mother p = Some mother) results
    | None => results
    end in
  let results :=
    match sister with
    | Some sister => filter (λ p, FamilyHistoryRead.sister p = Some sister) results
    | None => results
    end in
  let results :=
    match brother with
    | Some brother => filter (λ p, FamilyHistoryRead.brother p = Some brother) results
    | None => results
    end in
  mret results.

Definition get_family_history (history_id : UUID) : M World FamilyHistoryRead.t :=
  present ← contains family_histories_db history_id;
  if negb present then
    raise (HTTPException 404 "Family history not found")
  else getitem family_histories_db history_id.

Definition update_family_history (history_id : UUID)
  (update : FamilyHistoryUpdate.t) : M World FamilyHistoryRead.t :=
  present ← contains family_histories_db history_id;
  if negb present then
    raise (HTTPException 404 "Family history not found")
  else
    current ← getitem family_histories_db history_id;
    let stored := FamilyHistoryRead.model_dump current in
    let stored :=
      dict_update stored (FamilyHistoryUpdate.model_dump_exclude_unset update) in
    merged ← construct (FamilyHistoryRead.init stored);
    setitem family_histories_db history_id merged;;
    getitem family_histories_db history_id.

(** ** main.py: Account Balance endpoints *)

Definition create_account_balance (account_balance : AccountBalanceCreate.t)
  : M World AccountBalanceRead.t :=
  balance_read ← construct
    (AccountBalanceRead.init (AccountBalanceCreate.model_dump account_balance));
  setitem account_balances_db (AccountBalanceRead.id balance_read) balance_read;;
  getitem account_balances_db (AccountBalanceRead.id balance_read).

(** [p.account_balance == account_balance] for a float query value: the
    comparison of IEEE doubles, false on an attribute that is [None]. *)
Definition balance_eq (account_balance : float) (p : AccountBalanceRead.t)
  : bool :=
  match AccountBalanceRead.account_balance p with
  | Some x => PrimFloat.eqb x account_balance
  | None => false
  end.

Definition get_account_balance (account_balance : option float)
  : M World (list AccountBalanceRead.t) :=
  results ← values account_balances_db;
  let results :=
    match account_balance with
    | Some account_balance => filter (λ p, balance_eq account_balance p) results
    | None => results
    end in
  mret results.

Definition get_account_balances (account_id : UUID) : M World AccountBalanceRead.t :=
  present ← contains account_balances_db account_id;
  if negb present then
    raise (HTTPException 404 "Account balance not found")
  else getitem account_balances_db account_id.

Definition update_account_balance (account_id : UUID)
  (update : AccountBalanceUpdate.t) : M World AccountBalanceRead.t :=
  present ← contains account_balances_db account_id;
  if negb present then
    raise (HTTPException 404 "Account balance not found")
  else
    current ← getitem account_balances_db account_id;
    let stored := AccountBalanceRead.model_dump current in
    let stored :=
      dict_update stored (AccountBalanceUpdate.model_dump_exclude_unset update) in
    merged ← construct (AccountBalanceRead.init stored);
    setitem account_balances_db account_id merged;;
    getitem account_balances_db account_id.

(** ** main.py: Address endpoints *)

Definition create_address (address : AddressCreate.t) : M World AddressRead.t :=
  present ← contains addresses_db (AddressCreate.id address);
  if (present : bool) then
    raise (HTTPException 400 "Address with this ID already exists")
  else
    address_read ← construct (AddressRead.init (AddressCreate.model_dump address));
    setitem addresses_db (AddressCreate.id address) address_read;;
    getitem addresses_db (AddressCreate.id address).

Definition list_addresses (street city state postal_code country : option string)
  : M World (list AddressRead.t) :=
  results ← values addresses_db;
  let results :=
    match street with
    | Some street => filter (λ a, AddressRead.street a = Some street) results
    | None => results
    end in
  let results :=
    match city with
    | Some city => filter (λ a, AddressRead.city a = Some city) results
    | None => results
    end in
  let results :=
    match state with
    | Some state => filter (λ a, AddressRead.state a = Some state) results
    | None => results
    end in
  let results :=
    match postal_code with
    | Some postal_code => filter (λ a, AddressRead.postal_code a = Some postal_code) results
    | None => results
    end in
  let results :=
    match country with
    | Some country => filter (λ a, AddressRead.country a = Some country) results
    | None => results
    end in
  mret results.

Definition get_address (address_id : UUID) : M World AddressRead.t :=
  present ← contains addresses_db address_id;
  if negb present then
    raise (HTTPException 404 "Address not found")
  else getitem addresses_db address_id.

Definition update_address (address_id : UUID) (update : AddressUpdate.t)
  : M World AddressRead.t :=
  present ← contains addresses_db address_id;
  if negb present then
    raise (HTTPException 404 "Address not found")
  else
    current ← getitem addresses_db address_id;
    let stored := AddressRead.model_dump current in
    let stored :=
      dict_update stored (AddressUpdate.model_dump_exclude_unset update) in
    merged ← construct (AddressRead.init stored);
    setitem addresses_db address_id merged;;
    getitem addresses_db address_id.

(** ** main.py: Person endpoints *)

Definition create_person (person : PersonCreate.t) : M World PersonRead.t :=
  person_read ← construct (PersonRead.init (PersonCreate.model_dump person));
  setitem persons_db (PersonRead.id person_read) person_read;;
  mret person_read.

(** [any(addr.city == city for addr in p.addresses)] *)
Definition any_city (city : string) (p : PersonRead.t) : Prop :=
  Exists (λ addr, AddressBase.city addr = Some city) (PersonRead.addresses p).

(** [any(addr.country == country for addr in p.addresses)] *)
Definition any_country (country : string) (p : PersonRead.t) : Prop :=
  Exists (λ addr, AddressBase.country addr = Some country) (PersonRead.addresses p).

#[global] Instance any_city_dec city p : Decision (any_city city p).
Proof. unfold any_city. apply _. Defined.

#[global] Instance any_country_dec country p : Decision (any_country country p).
Proof. unfold any_country. apply _. Defined.

Definition list_persons
  (uni first_name last_name email phone birth_date city country : option string)
  : M World (list PersonRead.t) :=
  results ← values persons_db;
  let results :=
    match uni with
    | Some uni => filter (λ p, PersonRead.uni p = Some uni) results
    | None => results
    end in
  let results :=
    match first_name with
    | Some first_name => filter (λ p, PersonRead.first_name p = Some first_name) results
    | None => results
    end in
  let results :=
    match last_name with
    | Some last_name => filter (λ p, PersonRead.last_name p = Some last_name) results
    | None => results
    end in
  let results :=
    match email with
    | Some email => filter (λ p, PersonRead.email p = Some email) results
    | None => results
    end in
  let results :=
    match phone with
    | Some phone => filter (λ p, PersonRead.phone p = Some phone) results
    | None => results
    end in
  let results :=
    match birth_date with
    | Some birth_date => filter (λ p, str_opt_date (PersonRead.birth_date p) = birth_date) results
    | None => results
    end in
  let results :=
    match city with
    | Some city => filter (any_city city) results
    | None => results
    end in
  let results :=
    match country with
    | Some country => filter (any_country country) results
    | None => results
    end in
  mret results.

Definition get_person (person_id : UUID) : M World PersonRead.t :=
  present ← contains persons_db person_id;
  if negb present then
    raise (HTTPException 404 "Person not found")
  else getitem persons_db person_id.

Definition update_person (person_id : UUID) (update : PersonUpdate.t)
  : M World PersonRead.t :=
  present ← contains persons_db person_id;
  if negb present then
    raise (HTTPException 404 "Person not found")
  else
    current ← getitem persons_db person_id;
    let stored := PersonRead.model_dump current in
    let stored :=
      dict_update stored (PersonUpdate.model_dump_exclude_unset update) in
    merged ← construct (PersonRead.init stored);
    setitem persons_db person_id merged;;
    getitem persons_db person_id.

(** ** main.py: health and root *)

(** The text [t.isoformat() + "Z"] of an instant [t], kept by the instant
    it renders. *)
Record utc_text := IsoformatZ { instant : datetime }.

(** Modelled from the spec: [models/health.py] is not among the sources.
    The spec gives the health object a status code, a status message, a
    UTC timestamp in ISO-8601 with a trailing Z, the resolved IP address
    of the server, an optional echoed query string and an optional echoed
    path segment; [make_health] names the fields. *)
Module Health.
Record t := mk {
  status : Z;
  status_message : string;
  timestamp : utc_text;
  ip_address : string;
  echo : option string;
  path_echo : option string
}.
End Health.

(** [socket.gethostbyname(socket.gethostname())] is answered by the host:
    with an address, or with the [socket.gaierror] (an [OSError]) that a
    name which does not resolve raises.  The answer comes with the call. *)
Inductive resolution :=
| Resolved (ip_address : string)
| Unresolved (errno : Z) (strerror : string).

Definition gethostbyname (answer : resolution) : M World string :=
  match answer with
  | Resolved ip_address => mret ip_address
  | Unresolved errno strerror => raise (OSError errno strerror)
  end.

(** The keyword arguments of [Health] are evaluated in the order they are
    written: the clock is read before the name is resolved. *)
Definition make_health (answer : resolution) (echo path_echo : option string)
  : M World Health.t :=
  now ← construct utcnow;
  ip_address ← gethostbyname answer;
  mret (Health.mk 200 "OK" (IsoformatZ now) ip_address echo path_echo).

Definition get_health_no_path (answer : resolution) (echo : option string)
  : M World Health.t :=
  make_health answer echo None.

Definition get_health_with_path (answer : resolution) (path_echo : string)
  (echo : option string) : M World Health.t :=
  make_health answer echo (Some path_echo).

Definition root : M World kwargs :=
  mret {[ "message" :=
            VStr "Welcome to the Person/Address API. See /docs for OpenAPI UI." ]}.

(** ** main.py: the application *)

(** The four databases start empty. *)
Definition initial_world (e : Env) : World := mkWorld ∅ ∅ ∅ ∅ e.

(** The routes registered on [app], each with the arguments that the
    framework parses out of the request (and, for the health routes, the
    answer of the resolver). *)
Inductive request :=
| PostFamilyHistory (family_history : FamilyHistoryCreate.t)
| ListFamilyHistories (father mother sister brother : option string)
| GetFamilyHistory (history_id : UUID)
| PatchFamilyHistory (history_id : UUID) (update : FamilyHistoryUpdate.t)
| PostAccountBalance (account_balance : AccountBalanceCreate.t)
| ListAccountBalances (account_balance : option float)
| GetAccountBalance (account_id : UUID)
| PatchAccountBalance (account_id : UUID) (update : AccountBalanceUpdate.t)
| GetHealth (answer : resolution) (echo : option string)
| GetHealthPath (answer : resolution) (path_echo : string) (echo : option string)
| PostAddress (address : AddressCreate.t)
| ListAddresses (street city state postal_code country : option string)
| GetAddress (address_id : UUID)
| PatchAddress (address_id : UUID) (update : AddressUpdate.t)
| PostPerson (person : PersonCreate.t)
| ListPersons
    (uni first_name last_name email phone birth_date city country : option string)
| GetPerson (person_id : UUID)
| PatchPerson (person_id : UUID) (update : PersonUpdate.t)
| GetRoot.

(** What a handler hands back to the framework. *)
Inductive response :=
| OneFamilyHistory (r : FamilyHistoryRead.t)
| SomeFamilyHistories (l : list FamilyHistoryRead.t)
| OneAccountBalance (r : AccountBalanceRead.t)
| SomeAccountBalances (l : list AccountBalanceRead.t)
| OneAddress (r : AddressRead.t)
| SomeAddresses (l : list AddressRead.t)
| OnePerson (r : PersonRead.t)
| SomePersons (l : list PersonRead.t)
| HealthReport (h : Health.t)
| Message (d : kwargs).

Definition respond {A} (f : A → response) (m : M World A) : M World response :=
  a ← m; mret (f a).

(** The dispatch of a request to its handler. *)
Definition serve (q : request) : M World response :=
  match q with
  | PostFamilyHistory b => respond OneFamilyHistory (create_family_history b)
  | ListFamilyHistories f m s b =>
      respond SomeFamilyHistories (get_family_histories f m s b)
  | GetFamilyHistory k => respond OneFamilyHistory (get_family_history k)
  | PatchFamilyHistory k u => respond OneFamilyHistory (update_family_history k u)
  | PostAccountBalance b => respond OneAccountBalance (create_account_balance b)
  | ListAccountBalances x => respond SomeAccountBalances (get_account_balance x)
  | GetAccountBalance k => respond OneAccountBalance (get_account_balances k)
  | PatchAccountBalance k u =>
      respond OneAccountBalance (update_account_balance k u)
  | GetHealth ip e => respond HealthReport (get_health_no_path ip e)
  | GetHealthPath ip p e => respond HealthReport (get_health_with_path ip p e)
  | PostAddress b => respond OneAddress (create_address b)
  | ListAddresses s c st pc co => respond SomeAddresses (list_addresses s c st pc co)
  | GetAddress k => respond OneAddress (get_address k)
  | PatchAddress k u => respond OneAddress (update_address k u)
  | PostPerson b => respond OnePerson (create_person b)
  | ListPersons u f l e p b c co =>
      respond SomePersons (list_persons u f l e p b c co)
  | GetPerson k => respond OnePerson (get_person k)
  | PatchPerson k u => respond OnePerson (update_person k u)
  | GetRoot => respond Message root
  end.

(** The world after a sequence of requests, served one after the other. *)
Fixpoint serve_all (qs : list request) (w : World) : World :=
  match qs with
  | [] => w
  | q :: qs => serve_all qs (serve q w).2
  end.

(** The worlds that the application can be in: the initial one, and the
    one that serving a request leaves behind. *)
Inductive reachable (e : Env) : World → Prop :=
| reachable_initial : reachable e (initial_world e)
| reachable_serve q w : reachable e w → reachable e (serve q w).2.

(** * What a patch is to produce

    The reading of a partial update that the handlers are compared with. *)

(** The overlay of a partial update, field by field: the update's value
    when the field was provided, the stored one otherwise. *)
Definition overlay {A} (fields_set : gset string) (k : string) (new old : A) : A :=
  if decide (k ∈ fields_set) then new else old.

(** The record a patch of [current] by [update] is to store: each field
    that the update's model has is overlaid, the rest is kept. *)
Definition FamilyHistoryRead_patched (current : FamilyHistoryRead.t)
  (update : FamilyHistoryUpdate.t) : FamilyHistoryRead.t :=
  let fs := FamilyHistoryUpdate.model_fields_set update in
  FamilyHistoryRead.mk
    (overlay fs "id" (FamilyHistoryUpdate.id update) (FamilyHistoryRead.id current))
    (overlay fs "father" (FamilyHistoryUpdate.father update)
       (FamilyHistoryRead.father current))
    (overlay fs "mother" (FamilyHistoryUpdate.mother update)
       (FamilyHistoryRead.mother current))
    (overlay fs "sister" (FamilyHistoryUpdate.sister update)
       (FamilyHistoryRead.sister current))
    (overlay fs "brother" (FamilyHistoryUpdate.brother update)
       (FamilyHistoryRead.brother current))
    (FamilyHistoryRead.created_at current)
    (FamilyHistoryRead.updated_at current).

Definition AccountBalanceRead_patched (current : AccountBalanceRead.t)
  (update : AccountBalanceUpdate.t) : AccountBalanceRead.t :=
  let fs := AccountBalanceUpdate.model_fields_set update in
  AccountBalanceRead.mk
    (overlay fs "id" (AccountBalanceUpdate.id update) (AccountBalanceRead.id current))
    (overlay fs "account_balance" (AccountBalanceUpdate.account_balance update)
       (AccountBalanceRead.account_balance current))
    (AccountBalanceRead.created_at current)
    (AccountBalanceRead.updated_at current).

Definition AddressRead_patched (current : AddressRead.t)
  (update : AddressUpdate.t) : AddressRead.t :=
  let fs := AddressUpdate.model_fields_set update in
  AddressRead.mk
    (AddressRead.id current)
    (overlay fs "street" (AddressUpdate.street update) (AddressRead.street current))
    (overlay fs "city" (AddressUpdate.city update) (AddressRead.city current))
    (overlay fs "state" (AddressUpdate.state update) (AddressRead.state current))
    (overlay fs "postal_code" (AddressUpdate.postal_code update)
       (AddressRead.postal_code current))
    (overlay fs "country" (AddressUpdate.country update)
       (AddressRead.country current))
    (AddressRead.created_at current)
    (AddressRead.updated_at current).

Definition PersonRead_patched (current : PersonRead.t)
  (update : PersonUpdate.t) : PersonRead.t :=
  let fs := PersonUpdate.model_fields_set update in
  PersonRead.mk
    (PersonRead.id current)
    (overlay fs "uni" (PersonUpdate.uni update) (PersonRead.uni current))
    (overlay fs "first_name" (PersonUpdate.first_name update)
       (PersonRead.first_name current))
    (overlay fs "last_name" (PersonUpdate.last_name update)
       (PersonRead.last_name current))
    (overlay fs "email" (PersonUpdate.email update) (PersonRead.email current))
    (overlay fs "phone" (PersonUpdate.phone update) (PersonRead.phone current))
    (overlay fs "birth_date" (PersonUpdate.birth_date update)
       (PersonRead.birth_date current))
    (overlay fs "addresses" (PersonUpdate.addresses update)
       (PersonRead.addresses current))
    (PersonRead.created_at current)
    (PersonRead.updated_at current).

(** * What a create is to produce

    The record built from a creation payload: the payload's fields and
    the next two readings of the clock, which are thereby consumed. *)

Definition first_reading (e : Env) : datetime := utcnow_src e (utcnow_calls e).

Definition second_reading (e : Env) : datetime :=
  utcnow_src e (S (utcnow_calls e)).

Definition two_readings_later (e : Env) : Env :=
  mkEnv (utcnow_src e) (S (S (utcnow_calls e))) (uuid4_src e) (uuid4_calls e).

Definition FamilyHistoryRead_created (payload : FamilyHistoryCreate.t) (e : Env)
  : FamilyHistoryRead.t :=
  FamilyHistoryRead.mk
    (FamilyHistoryCreate.id payload)
    (FamilyHistoryCreate.father payload)
    (FamilyHistoryCreate.mother payload)
    (FamilyHistoryCreate.sister payload)
    (FamilyHistoryCreate.brother payload)
    (first_reading e) (second_reading e).

Definition AccountBalanceRead_created (payload : AccountBalanceCreate.t) (e : Env)
  : AccountBalanceRead.t :=
  AccountBalanceRead.mk
    (AccountBalanceCreate.id payload)
    (AccountBalanceCreate.account_balance payload)
    (first_reading e) (second_reading e).

Definition AddressRead_created (payload : AddressCreate.t) (e : Env)
  : AddressRead.t :=
  AddressRead.mk
    (AddressCreate.id payload)
    (AddressCreate.street payload)
    (AddressCreate.city payload)
    (AddressCreate.state payload)
    (AddressCreate.postal_code payload)
    (AddressCreate.country payload)
    (first_reading e) (second_reading e).

Definition PersonRead_created (payload : PersonCreate.t) (e : Env)
  : PersonRead.t :=
  PersonRead.mk
    (PersonCreate.id payload)
    (PersonCreate.uni payload)
    (PersonCreate.first_name payload)
    (PersonCreate.last_name payload)
    (PersonCreate.email payload)
    (PersonCreate.phone payload)
    (PersonCreate.birth_date payload)
    (PersonCreate.addresses payload)
    (first_reading e) (second_reading e).

(** * What a listing is to return

    The conjunction of the equality predicates of the filters supplied;
    an absent filter imposes nothing. *)

Definition eq_filter {A} (q : option A) (field : option A) : Prop :=
  match q with
  | Some x => field = Some x
  | None => True
  end.

Definition FamilyHistory_filters (father mother sister brother : option string)
  (p : FamilyHistoryRead.t) : Prop :=
  eq_filter father (FamilyHistoryRead.father p) ∧
  eq_filter mother (FamilyHistoryRead.mother p) ∧
  eq_filter sister (FamilyHistoryRead.sister p) ∧
  eq_filter brother (FamilyHistoryRead.brother p).

(** Equality of balances is the equality of IEEE doubles. *)
Definition AccountBalance_filters (account_balance : option float)
  (p : AccountBalanceRead.t) : Prop :=
  match account_balance with
  | Some x =>
      ∃ y, AccountBalanceRead.account_balance p = Some y ∧ PrimFloat.eqb y x = true
  | None => True
  end.

Definition Address_filters (street city state postal_code country : option string)
  (a : AddressRead.t) : Prop :=
  eq_filter street (AddressRead.street a) ∧
  eq_filter city (AddressRead.city a) ∧
  eq_filter state (AddressRead.state a) ∧
  eq_filter postal_code (AddressRead.postal_code a) ∧
  eq_filter country (AddressRead.country a).

(** Some embedded address of the person has the city (the country). *)
Definition lives_in_city (city : string) (p : PersonRead.t) : Prop :=
  ∃ addr, addr ∈ PersonRead.addresses p ∧ AddressBase.city addr = Some city.

Definition lives_in_country (country : string) (p : PersonRead.t) : Prop :=
  ∃ addr, addr ∈ PersonRead.addresses p ∧ AddressBase.country addr = Some country.

Definition Person_filters
  (uni first_name last_name email phone birth_date city country : option string)
  (p : PersonRead.t) : Prop :=
  eq_filter uni (PersonRead.uni p) ∧
  eq_filter first_name (PersonRead.first_name p) ∧
  eq_filter last_name (PersonRead.last_name p) ∧
  eq_filter email (PersonRead.email p) ∧
  eq_filter phone (PersonRead.phone p) ∧
  match birth_date with
  | Some d => str_opt_date (PersonRead.birth_date p) = d
  | None => True
  end ∧
  match city with
  | Some c => lives_in_city c p
  | None => True
  end ∧
  match country with
  | Some c => lives_in_country c p
  | None => True
  end.

(** A record is stored when some key of the dictionary holds it. *)
Definition stored_in {V} (m : gmap UUID V) (v : V) : Prop := ∃ k, m !! k = Some v.

(** * Invariants and frames

    What the statements about whole runs of the application speak of. *)

(** The four dictionaries of [w'] are those of [w]. *)
Definition same_databases (w w' : World) : Prop :=
  persons w' = persons w ∧
  family_histories w' = family_histories w ∧
  account_balances w' = account_balances w ∧
  addresses w' = addresses w.

(** Between [w] and [w'] nothing changed but, at most, the entry of one
    dictionary under the key [k]. *)
Definition only_family_history (k : UUID) (w w' : World) : Prop :=
  persons w' = persons w ∧
  account_balances w' = account_balances w ∧
  addresses w' = addresses w ∧
  ∀ k', k' ≠ k → family_histories w' !! k' = family_histories w !! k'.

Definition only_account_balance (k : UUID) (w w' : World) : Prop :=
  persons w' = persons w ∧
  family_histories w' = family_histories w ∧
  addresses w' = addresses w ∧
  ∀ k', k' ≠ k → account_balances w' !! k' = account_balances w !! k'.

Definition only_address (k : UUID) (w w' : World) : Prop :=
  persons w' = persons w ∧
  family_histories w' = family_histories w ∧
  account_balances w' = account_balances w ∧
  ∀ k', k' ≠ k → addresses w' !! k' = addresses w !! k'.

Definition only_person (k : UUID) (w w' : World) : Prop :=
  family_histories w' = family_histories w ∧
  account_balances w' = account_balances w ∧
  addresses w' = addresses w ∧
  ∀ k', k' ≠ k → persons w' !! k' = persons w !! k'.

(** Every stored account balance holds a float. *)
Definition balances_validated (w : World) : Prop :=
  ∀ k r, account_balances w !! k = Some r →
         is_Some (AccountBalanceRead.account_balance r).

(** The clock never runs backwards. *)
Definition clock_monotone (e : Env) : Prop :=
  ∀ i j, (i ≤ j)%nat → (utcnow_src e i ≤ utcnow_src e j)%Z.

(** [created] and [updated] are two successive readings of the clock of
    [e], both among the first [calls] readings. *)
Definition stamped (e : Env) (calls : nat) (created updated : datetime) : Prop :=
  ∃ n, (S n < calls)%nat ∧
       created = utcnow_src e n ∧ updated = utcnow_src e (S n).

(** The sources of [w] are those of [e], and the timestamps of every
    stored record are two successive readings already consumed. *)
Definition timestamps_from_clock (e : Env) (w : World) : Prop :=
  utcnow_src (env w) = utcnow_src e ∧
  (∀ k r, family_histories w !! k = Some r →
     stamped e (utcnow_calls (env w))
       (FamilyHistoryRead.created_at r) (FamilyHistoryRead.updated_at r)) ∧
  (∀ k r, account_balances w !! k = Some r →
     stamped e (utcnow_calls (env w))
       (AccountBalanceRead.created_at r) (AccountBalanceRead.updated_at r)) ∧
  (∀ k r, addresses w !! k = Some r →
     stamped e (utcnow_calls (env w))
       (AddressRead.created_at r) (AddressRead.updated_at r)) ∧
  (∀ k r, persons w !! k = Some r →
     stamped e (utcnow_calls (env w))
       (PersonRead.created_at r) (PersonRead.updated_at r)).

(** The exceptions that serving a request can end in: the HTTP error that
    the handler raises itself, the validation error of the Read model
    that the handler constructs (none for a family history, whose fields
    are all nullable), and, on a health route, the error with which the
    resolver answered. *)
Definition may_raise (q : request) (e : exn) : Prop :=
  match q with
  | PostFamilyHistory _ =>
      e = HTTPException 400 "Family History with this ID already exists"
  | GetFamilyHistory _ | PatchFamilyHistory _ _ =>
      e = HTTPException 404 "Family history not found"
  | PostAccountBalance _ => e = ValidationError "AccountBalanceRead"
  | GetAccountBalance _ => e = HTTPException 404 "Account balance not found"
  | PatchAccountBalance _ _ =>
      e = HTTPException 404 "Account balance not found" ∨
      e = ValidationError "AccountBalanceRead"
  | GetHealth answer _ | GetHealthPath answer _ _ =>
      ∃ errno strerror,
        answer = Unresolved errno strerror ∧ e = OSError errno strerror
  | PostAddress _ =>
      e = HTTPException 400 "Address with this ID already exists" ∨
      e = ValidationError "AddressRead"
  | GetAddress _ => e = HTTPException 404 "Address not found"
  | PatchAddress _ _ =>
      e = HTTPException 404 "Address not found" ∨
      e = ValidationError "AddressRead"
  | PostPerson _ => e = ValidationError "PersonRead"
  | GetPerson _ => e = HTTPException 404 "Person not found"
  | PatchPerson _ _ =>
      e = HTTPException 404 "Person not found" ∨
      e = ValidationError "PersonRead"
  | ListFamilyHistories _ _ _ _ | ListAccountBalances _
  | ListAddresses _ _ _ _ _ | ListPersons _ _ _ _ _ _ _ _ | GetRoot => False
  end.

(** * Sample data

    A small world and payloads on which the statements below are run. *)

Definition sample_env : Env := mkEnv (λ n, Z.of_nat n) 0 (λ n, N.of_nat n) 0.

Definition sample_history : FamilyHistoryRead.t :=
  FamilyHistoryRead.mk 7 (Some "IBS") (Some "diabetes") None None 100 100.

Definition sample_balance : AccountBalanceRead.t :=
  AccountBalanceRead.mk 3 (Some 120.25%float) 100 100.

Definition sample_address : AddressRead.t :=
  AddressRead.mk 5 (Some "5th Ave") (Some "NYC") None None (Some "USA") 100 100.

Definition paris_home : AddressBase.t :=
  AddressBase.mk (Some "Rue Cler") (Some "Paris") None None (Some "France").

Definition sample_person : PersonRead.t :=
  PersonRead.mk 9 (Some "ab1234") (Some "Ada") (Some "Byron") None None
    (Some (Date 1815 12 10)) [paris_home] 100 100.

Definition sample_world : World :=
  mkWorld {[ 9%N := sample_person ]} {[ 7%N := sample_history ]}
    {[ 3%N := sample_balance ]} {[ 5%N := sample_address ]} sample_env.



(** Every record sits under its own identifier. *)
Definition key_is_id (w : World) : Prop :=
  (∀ k r, family_histories w !! k = Some r → FamilyHistoryRead.id r = k) ∧
  (∀ k r, account_balances w !! k = Some r → AccountBalanceRead.id r = k) ∧
  (∀ k r, addresses w !! k = Some r → AddressRead.id r = k) ∧
  (∀ k r, persons w !! k = Some r → PersonRead.id r = k).

(** The body of the request provides no [id]: it is not a patch of a
    FamilyHistory or of an AccountBalance whose body has the field. *)
Definition no_body_id (q : request) : Prop :=
  match q with
  | PatchFamilyHistory _ update =>
      "id" ∉ FamilyHistoryUpdate.model_fields_set update
  | PatchAccountBalance _ update =>
      "id" ∉ AccountBalanceUpdate.model_fields_set update
  | _ => True
  end.

(** A world that one create has been served in, from the empty one. *)
Definition one_balance_world : World :=
  (serve (PostAccountBalance (AccountBalanceCreate.mk 3 (Some 42.5%float)))
     (initial_world sample_env)).2.

Definition one_history_world : World :=
  (serve (PostFamilyHistory
            (FamilyHistoryCreate.mk 7 (Some "IBS") None None None))
     (initial_world sample_env)).2.

(** A world that holds two family histories. *)
Definition two_histories_world : World :=
  set_family_histories
    {[ 7%N := sample_history;
       8%N := FamilyHistoryRead.mk 8 None (Some "asthma") None None 200 200 ]}
    sample_world.

(** The world after a family history was created under 7 and then patched
    with a body that provides the identifier 8. *)
Definition rewritten_id_world : World :=
  serve_all
    [PostFamilyHistory (FamilyHistoryCreate.mk 7 (Some "IBS") None None None);
     PatchFamilyHistory 7
       (FamilyHistoryUpdate.mk 8 None None None None {[ "id" ]})]
    (initial_world sample_env).

(** * Properties *)

(** ** Running computations *)

Lemma bind_run {S A B} (m : M S A) (f : A → M S B) (s : S) :
  (m ≫= f) s =
  match m s with
  | (Returned a, s') => f a s'
  | (Raised e, s') => (Raised e, s')
  end.
Proof. reflexivity. Qed.

Lemma contains_run {V} (d : db V) k w :
  contains d k w = (Returned (bool_decide (is_Some (db_get d w !! k))), w).
Proof. reflexivity. Qed.

Lemma contains_present {V} (d : db V) k v w :
  db_get d w !! k = Some v → contains d k w = (Returned true, w).
Proof.
  intros Hk. rewrite contains_run, bool_decide_eq_true_2; [done|]. by exists v.
Qed.

Lemma contains_absent {V} (d : db V) k w :
  db_get d w !! k = None → contains d k w = (Returned false, w).
Proof.
  intros Hk. rewrite contains_run, bool_decide_eq_false_2; [done|].
  rewrite Hk. by intros [? ?].
Qed.

Lemma getitem_present {V} (d : db V) k v w :
  db_get d w !! k = Some v → getitem d k w = (Returned v, w).
Proof. intros Hk. unfold getitem. by rewrite Hk. Qed.

Lemma set_env_same w : set_env (env w) w = w.
Proof. by destruct w. Qed.

Lemma construct_pure {A} (c : M Env A) (a : A) w :
  c (env w) = (Returned a, env w) → construct c w = (Returned a, w).
Proof. intros Hc. unfold construct. by rewrite Hc, set_env_same. Qed.

(** Membership in a listing of a dictionary's values. *)
Lemma elem_of_values {V} (m : gmap UUID V) (v : V) :
  v ∈ (map_to_list m).*2 ↔ ∃ k, m !! k = Some v.
Proof.
  rewrite list_elem_of_fmap. split.
  - intros [[k v'] [-> Hin]]. exists k. by apply elem_of_map_to_list.
  - intros [k Hk]. exists (k, v). split; [done|]. by apply elem_of_map_to_list.
Qed.

(** ** Unknown identifiers *)

Lemma update_family_history_unknown history_id update w :
  family_histories w !! history_id = None →
  update_family_history history_id update w =
    (Raised (HTTPException 404 "Family history not found"), w).
Proof.
  intros H. unfold update_family_history.
  rewrite bind_run, (contains_absent family_histories_db) by done. reflexivity.
Qed.

Lemma update_account_balance_unknown account_id update w :
  account_balances w !! account_id = None →
  update_account_balance account_id update w =
    (Raised (HTTPException 404 "Account balance not found"), w).
Proof.
  intros H. unfold update_account_balance.
  rewrite bind_run, (contains_absent account_balances_db) by done. reflexivity.
Qed.

Lemma update_address_unknown address_id update w :
  addresses w !! address_id = None →
  update_address address_id update w =
    (Raised (HTTPException 404 "Address not found"), w).
Proof.
  intros H. unfold update_address.
  rewrite bind_run, (contains_absent addresses_db) by done. reflexivity.
Qed.

Lemma update_person_unknown person_id update w :
  persons w !! person_id = None →
  update_person person_id update w =
    (Raised (HTTPException 404 "Person not found"), w).
Proof.
  intros H. unfold update_person.
  rewrite bind_run, (contains_absent persons_db) by done. reflexivity.
Qed.

(** ** Keyword dictionaries *)

Lemma overlay_empty {A} k (new old : A) : overlay ∅ k new old = old.
Proof. unfold overlay. case_decide; set_solver. Qed.

Lemma overlay_set {A} fs k (new old : A) : k ∈ fs → overlay fs k new old = new.
Proof. intros. unfold overlay. by case_decide. Qed.

Lemma overlay_unset {A} fs k (new old : A) : k ∉ fs → overlay fs k new old = old.
Proof. intros. unfold overlay. by case_decide. Qed.

Lemma overlay_fmap {A B} (f : A → B) fs k new old :
  overlay fs k (f new) (f old) = f (overlay fs k new old).
Proof. unfold overlay. by case_decide. Qed.

Lemma lookup_exclude_unset fs (d : kwargs) k :
  exclude_unset fs d !! k = if decide (k ∈ fs) then d !! k else None.
Proof.
  unfold exclude_unset. case_decide as Hk.
  - destruct (d !! k) as [v|] eqn:Hd.
    + by apply map_lookup_filter_Some.
    + apply map_lookup_filter_None. left. done.
  - apply map_lookup_filter_None. right. intros v _. done.
Qed.

Lemma lookup_dict_update (d other : kwargs) k :
  dict_update d other !! k =
  match other !! k with
  | Some v => Some v
  | None => d !! k
  end.
Proof.
  unfold dict_update. rewrite lookup_union.
  destruct (other !! k), (d !! k); reflexivity.
Qed.

(** A key that both dumps hold: the merged dictionary holds the overlay. *)
Lemma lookup_merged fs (stored dump : kwargs) k new old :
  dump !! k = Some new → stored !! k = Some old →
  dict_update stored (exclude_unset fs dump) !! k = Some (overlay fs k new old).
Proof.
  intros Hn Ho. rewrite lookup_dict_update, lookup_exclude_unset.
  unfold overlay. case_decide; by rewrite ?Hn, ?Ho.
Qed.

(** A key that the update's model does not have: the stored value stays. *)
Lemma lookup_merged_foreign fs (stored dump : kwargs) k :
  dump !! k = None →
  dict_update stored (exclude_unset fs dump) !! k = stored !! k.
Proof.
  intros Hn. rewrite lookup_dict_update, lookup_exclude_unset.
  case_decide; by rewrite ?Hn.
Qed.

(** ** Field validation on dumped values *)

Lemma field_uuid_dumped k (kw : kwargs) u e :
  kw !! k = Some (VUuid u) → field_uuid k kw e = (Returned (Some u), e).
Proof. intros H. unfold field_uuid. by rewrite H. Qed.

Lemma field_datetime_dumped k (kw : kwargs) t e :
  kw !! k = Some (VDatetime t) → field_datetime k kw e = (Returned (Some t), e).
Proof. intros H. unfold field_datetime. by rewrite H. Qed.

Lemma field_datetime_missing k (kw : kwargs) e :
  kw !! k = None →
  field_datetime k kw e =
    (Returned (Some (utcnow_src e (utcnow_calls e))),
     mkEnv (utcnow_src e) (S (utcnow_calls e)) (uuid4_src e) (uuid4_calls e)).
Proof. intros H. unfold field_datetime. by rewrite H. Qed.

Lemma field_opt_str_dumped k (kw : kwargs) x :
  kw !! k = Some (opt_str_value x) → field_opt_str k kw = Some x.
Proof. intros H. unfold field_opt_str. rewrite H. by destruct x. Qed.

Lemma field_opt_date_dumped k (kw : kwargs) x :
  kw !! k = Some (opt_date_value x) → field_opt_date k kw = Some x.
Proof. intros H. unfold field_opt_date. rewrite H. by destruct x. Qed.

Lemma field_float_dumped k (kw : kwargs) x :
  kw !! k = Some (opt_float_value x) →
  field_float_default_none k kw = (λ q, Some q) <$> x.
Proof. intros H. unfold field_float_default_none. rewrite H. by destruct x. Qed.

(** ** Family histories: constructor and handlers *)

Lemma FamilyHistoryRead_init_dumped (kw : kwargs) (r : FamilyHistoryRead.t) e :
  kw !! "id" = Some (VUuid (FamilyHistoryRead.id r)) →
  kw !! "father" = Some (opt_str_value (FamilyHistoryRead.father r)) →
  kw !! "mother" = Some (opt_str_value (FamilyHistoryRead.mother r)) →
  kw !! "sister" = Some (opt_str_value (FamilyHistoryRead.sister r)) →
  kw !! "brother" = Some (opt_str_value (FamilyHistoryRead.brother r)) →
  kw !! "created_at" = Some (VDatetime (FamilyHistoryRead.created_at r)) →
  kw !! "updated_at" = Some (VDatetime (FamilyHistoryRead.updated_at r)) →
  FamilyHistoryRead.init kw e = (Returned r, e).
Proof.
  intros Hid Hf Hm Hs Hb Hc Hu. unfold FamilyHistoryRead.init.
  rewrite bind_run, (field_uuid_dumped _ _ _ _ Hid).
  rewrite bind_run, (field_datetime_dumped _ _ _ _ Hc).
  rewrite bind_run, (field_datetime_dumped _ _ _ _ Hu).
  rewrite (field_opt_str_dumped _ _ _ Hf), (field_opt_str_dumped _ _ _ Hm),
    (field_opt_str_dumped _ _ _ Hs), (field_opt_str_dumped _ _ _ Hb).
  by destruct r.
Qed.

Lemma update_family_history_stored history_id update current w :
  family_histories w !! history_id = Some current →
  update_family_history history_id update w =
    (Returned (FamilyHistoryRead_patched current update),
     set_family_histories
       (<[history_id := FamilyHistoryRead_patched current update]>
          (family_histories w)) w).
Proof.
  intros H. unfold update_family_history.
  rewrite bind_run, (contains_present family_histories_db _ current) by done.
  cbn [negb]. rewrite bind_run, (getitem_present _ _ current) by done.
  rewrite bind_run.
  rewrite (construct_pure _ (FamilyHistoryRead_patched current update)).
  - rewrite bind_run. cbn. unfold getitem. cbn. by rewrite lookup_insert_eq.
  - unfold FamilyHistoryUpdate.model_dump_exclude_unset.
    apply FamilyHistoryRead_init_dumped; cbn [FamilyHistoryRead_patched
      FamilyHistoryRead.id FamilyHistoryRead.father FamilyHistoryRead.mother
      FamilyHistoryRead.sister FamilyHistoryRead.brother
      FamilyHistoryRead.created_at FamilyHistoryRead.updated_at];
      rewrite <- ?(overlay_fmap opt_str_value), <- ?(overlay_fmap VUuid).
    1-5: apply lookup_merged; reflexivity.
    all: rewrite lookup_merged_foreign by reflexivity; reflexivity.
Qed.

Lemma field_datetime_twice (kw : kwargs) e :
  kw !! "created_at" = None → kw !! "updated_at" = None →
  field_datetime "created_at" kw e =
    (Returned (Some (first_reading e)),
     mkEnv (utcnow_src e) (S (utcnow_calls e)) (uuid4_src e) (uuid4_calls e)) ∧
  field_datetime "updated_at" kw
    (mkEnv (utcnow_src e) (S (utcnow_calls e)) (uuid4_src e) (uuid4_calls e)) =
    (Returned (Some (second_reading e)), two_readings_later e).
Proof. intros Hc Hu. by rewrite !field_datetime_missing. Qed.

Lemma FamilyHistoryRead_init_create payload e :
  FamilyHistoryRead.init (FamilyHistoryCreate.model_dump payload) e =
    (Returned (FamilyHistoryRead_created payload e), two_readings_later e).
Proof.
  unfold FamilyHistoryRead.init.
  set (kw := FamilyHistoryCreate.model_dump payload).
  destruct (field_datetime_twice kw e) as [Hc Hu]; [reflexivity..|].
  rewrite bind_run, (field_uuid_dumped _ _ (FamilyHistoryCreate.id payload))
    by reflexivity.
  rewrite bind_run, Hc, bind_run, Hu.
  rewrite (field_opt_str_dumped "father" _ (FamilyHistoryCreate.father payload)),
    (field_opt_str_dumped "mother" _ (FamilyHistoryCreate.mother payload)),
    (field_opt_str_dumped "sister" _ (FamilyHistoryCreate.sister payload)),
    (field_opt_str_dumped "brother" _ (FamilyHistoryCreate.brother payload))
    by reflexivity.
  reflexivity.
Qed.

Lemma create_family_history_fresh payload w :
  family_histories w !! FamilyHistoryCreate.id payload = None →
  create_family_history payload w =
    (Returned (FamilyHistoryRead_created payload (env w)),
     set_family_histories
       (<[FamilyHistoryCreate.id payload := FamilyHistoryRead_created payload (env w)]>
          (family_histories w))
       (set_env (two_readings_later (env w)) w)).
Proof.
  intros H. unfold create_family_history.
  rewrite bind_run, (contains_absent family_histories_db) by done.
  rewrite bind_run. unfold construct. rewrite FamilyHistoryRead_init_create.
  rewrite bind_run. cbn. unfold getitem. cbn. by rewrite lookup_insert_eq.
Qed.

Lemma create_family_history_duplicate payload w :
  is_Some (family_histories w !! FamilyHistoryCreate.id payload) →
  create_family_history payload w =
    (Raised (HTTPException 400 "Family History with this ID already exists"), w).
Proof.
  intros [v H]. unfold create_family_history.
  by rewrite bind_run, (contains_present family_histories_db _ v).
Qed.

(** ** Account balances: constructor and handlers *)

Lemma AccountBalanceRead_init_dumped (kw : kwargs) (r : AccountBalanceRead.t) e :
  kw !! "id" = Some (VUuid (AccountBalanceRead.id r)) →
  kw !! "account_balance" =
    Some (opt_float_value (AccountBalanceRead.account_balance r)) →
  kw !! "created_at" = Some (VDatetime (AccountBalanceRead.created_at r)) →
  kw !! "updated_at" = Some (VDatetime (AccountBalanceRead.updated_at r)) →
  AccountBalanceRead.init kw e =
    (match AccountBalanceRead.account_balance r with
     | Some _ => Returned r
     | None => Raised (ValidationError "AccountBalanceRead")
     end, e).
Proof.
  intros Hid Hb Hc Hu. unfold AccountBalanceRead.init.
  rewrite bind_run, (field_uuid_dumped _ _ _ _ Hid).
  rewrite bind_run, (field_datetime_dumped _ _ _ _ Hc).
  rewrite bind_run, (field_datetime_dumped _ _ _ _ Hu).
  rewrite (field_float_dumped _ _ _ Hb).
  by destruct r as [? [?|] ? ?].
Qed.

Lemma AccountBalanceRead_init_create payload e :
  AccountBalanceRead.init (AccountBalanceCreate.model_dump payload) e =
    (match AccountBalanceCreate.account_balance payload with
     | Some _ => Returned (AccountBalanceRead_created payload e)
     | None => Raised (ValidationError "AccountBalanceRead")
     end, two_readings_later e).
Proof.
  unfold AccountBalanceRead.init.
  set (kw := AccountBalanceCreate.model_dump payload).
  destruct (field_datetime_twice kw e) as [Hc Hu]; [reflexivity..|].
  rewrite bind_run, (field_uuid_dumped _ _ (AccountBalanceCreate.id payload))
    by reflexivity.
  rewrite bind_run, Hc, bind_run, Hu.
  rewrite (field_float_dumped "account_balance" _
             (AccountBalanceCreate.account_balance payload)) by reflexivity.
  by destruct payload as [? [?|]].
Qed.

Lemma create_account_balance_run payload w :
  create_account_balance payload w =
    match AccountBalanceCreate.account_balance payload with
    | Some _ =>
        (Returned (AccountBalanceRead_created payload (env w)),
         set_account_balances
           (<[AccountBalanceCreate.id payload :=
                AccountBalanceRead_created payload (env w)]>
              (account_balances w))
           (set_env (two_readings_later (env w)) w))
    | None =>
        (Raised (ValidationError "AccountBalanceRead"),
         set_env (two_readings_later (env w)) w)
    end.
Proof.
  unfold create_account_balance.
  rewrite bind_run. unfold construct. rewrite AccountBalanceRead_init_create.
  destruct (AccountBalanceCreate.account_balance payload); [|reflexivity].
  rewrite bind_run. cbn. unfold getitem. cbn. by rewrite lookup_insert_eq.
Qed.

Lemma update_account_balance_stored account_id update current w :
  account_balances w !! account_id = Some current →
  update_account_balance account_id update w =
    match AccountBalanceRead.account_balance
            (AccountBalanceRead_patched current update) with
    | Some _ =>
        (Returned (AccountBalanceRead_patched current update),
         set_account_balances
           (<[account_id := AccountBalanceRead_patched current update]>
              (account_balances w)) w)
    | None => (Raised (ValidationError "AccountBalanceRead"), w)
    end.
Proof.
  intros H. unfold update_account_balance.
  rewrite bind_run, (contains_present account_balances_db _ current) by done.
  cbn [negb]. rewrite bind_run, (getitem_present _ _ current) by done.
  rewrite bind_run. unfold construct.
  rewrite (AccountBalanceRead_init_dumped _
             (AccountBalanceRead_patched current update)).
  - rewrite set_env_same.
    destruct (AccountBalanceRead.account_balance
                (AccountBalanceRead_patched current update)); [|reflexivity].
    rewrite bind_run. cbn. unfold getitem. cbn. by rewrite lookup_insert_eq.
  - unfold AccountBalanceUpdate.model_dump_exclude_unset.
    cbn [AccountBalanceRead_patched AccountBalanceRead.id].
    rewrite <- (overlay_fmap VUuid). apply lookup_merged; reflexivity.
  - unfold AccountBalanceUpdate.model_dump_exclude_unset.
    cbn [AccountBalanceRead_patched AccountBalanceRead.account_balance].
    rewrite <- (overlay_fmap opt_float_value). apply lookup_merged; reflexivity.
  - unfold AccountBalanceUpdate.model_dump_exclude_unset.
    rewrite lookup_merged_foreign by reflexivity; reflexivity.
  - unfold AccountBalanceUpdate.model_dump_exclude_unset.
    rewrite lookup_merged_foreign by reflexivity; reflexivity.
Qed.

(** ** Addresses: constructor and handlers *)

Lemma AddressRead_init_dumped (kw : kwargs) (r : AddressRead.t) e :
  kw !! "id" = Some (VUuid (AddressRead.id r)) →
  kw !! "street" = Some (opt_str_value (AddressRead.street r)) →
  kw !! "city" = Some (opt_str_value (AddressRead.city r)) →
  kw !! "state" = Some (opt_str_value (AddressRead.state r)) →
  kw !! "postal_code" = Some (opt_str_value (AddressRead.postal_code r)) →
  kw !! "country" = Some (opt_str_value (AddressRead.country r)) →
  kw !! "created_at" = Some (VDatetime (AddressRead.created_at r)) →
  kw !! "updated_at" = Some (VDatetime (AddressRead.updated_at r)) →
  AddressRead.init kw e = (Returned r, e).
Proof.
  intros Hid H1 H2 H3 H4 H5 Hc Hu. unfold AddressRead.init.
  rewrite bind_run, (field_uuid_dumped _ _ _ _ Hid).
  rewrite bind_run, (field_datetime_dumped _ _ _ _ Hc).
  rewrite bind_run, (field_datetime_dumped _ _ _ _ Hu).
  rewrite (field_opt_str_dumped _ _ _ H1), (field_opt_str_dumped _ _ _ H2),
    (field_opt_str_dumped _ _ _ H3), (field_opt_str_dumped _ _ _ H4),
    (field_opt_str_dumped _ _ _ H5).
  by destruct r.
Qed.

Lemma AddressRead_init_create payload e :
  AddressRead.init (AddressCreate.model_dump payload) e =
    (Returned (AddressRead_created payload e), two_readings_later e).
Proof.
  unfold AddressRead.init.
  set (kw := AddressCreate.model_dump payload).
  destruct (field_datetime_twice kw e) as [Hc Hu]; [reflexivity..|].
  rewrite bind_run, (field_uuid_dumped _ _ (AddressCreate.id payload))
    by reflexivity.
  rewrite bind_run, Hc, bind_run, Hu.
  rewrite (field_opt_str_dumped "street" _ (AddressCreate.street payload)),
    (field_opt_str_dumped "city" _ (AddressCreate.city payload)),
    (field_opt_str_dumped "state" _ (AddressCreate.state payload)),
    (field_opt_str_dumped "postal_code" _ (AddressCreate.postal_code payload)),
    (field_opt_str_dumped "country" _ (AddressCreate.country payload))
    by reflexivity.
  reflexivity.
Qed.

Lemma create_address_fresh payload w :
  addresses w !! AddressCreate.id payload = None →
  create_address payload w =
    (Returned (AddressRead_created payload (env w)),
     set_addresses
       (<[AddressCreate.id payload := AddressRead_created payload (env w)]>
          (addresses w))
       (set_env (two_readings_later (env w)) w)).
Proof.
  intros H. unfold create_address.
  rewrite bind_run, (contains_absent addresses_db) by done.
  rewrite bind_run. unfold construct. rewrite AddressRead_init_create.
  rewrite bind_run. cbn. unfold getitem. cbn. by rewrite lookup_insert_eq.
Qed.

Lemma create_address_duplicate payload w :
  is_Some (addresses w !! AddressCreate.id payload) →
  create_address payload w =
    (Raised (HTTPException 400 "Address with this ID already exists"), w).
Proof.
  intros [v H]. unfold create_address.
  by rewrite bind_run, (contains_present addresses_db _ v).
Qed.

Lemma update_address_stored address_id update current w :
  addresses w !! address_id = Some current →
  update_address address_id update w =
    (Returned (AddressRead_patched current update),
     set_addresses
       (<[address_id := AddressRead_patched current update]> (addresses w)) w).
Proof.
  intros H. unfold update_address.
  rewrite bind_run, (contains_present addresses_db _ current) by done.
  cbn [negb]. rewrite bind_run, (getitem_present _ _ current) by done.
  rewrite bind_run.
  rewrite (construct_pure _ (AddressRead_patched current update)).
  - rewrite bind_run. cbn. unfold getitem. cbn. by rewrite lookup_insert_eq.
  - unfold AddressUpdate.model_dump_exclude_unset.
    apply AddressRead_init_dumped; cbn [AddressRead_patched
      AddressRead.id AddressRead.street AddressRead.city AddressRead.state
      AddressRead.postal_code AddressRead.country
      AddressRead.created_at AddressRead.updated_at];
      rewrite <- ?(overlay_fmap opt_str_value).
    2-6: apply lookup_merged; reflexivity.
    all: rewrite lookup_merged_foreign by reflexivity; reflexivity.
Qed.

(** ** Persons: constructor and handlers *)

Lemma AddressBase_validate_dumped (a : AddressBase.t) :
  AddressBase.validate (AddressBase.model_dump a) = Some a.
Proof.
  unfold AddressBase.validate.
  rewrite (field_opt_str_dumped "street" _ (AddressBase.street a)),
    (field_opt_str_dumped "city" _ (AddressBase.city a)),
    (field_opt_str_dumped "state" _ (AddressBase.state a)),
    (field_opt_str_dumped "postal_code" _ (AddressBase.postal_code a)),
    (field_opt_str_dumped "country" _ (AddressBase.country a))
    by reflexivity.
  by destruct a.
Qed.

Lemma validate_addresses_dumped (l : list AddressBase.t) :
  validate_addresses ((λ a, VDict (AddressBase.model_dump a)) <$> l) = Some l.
Proof.
  induction l as [|a l IH]; [reflexivity|].
  cbn [fmap list_fmap validate_addresses].
  by rewrite AddressBase_validate_dumped, IH.
Qed.

Lemma field_addresses_dumped k (kw : kwargs) l :
  kw !! k = Some (addresses_value l) → field_addresses k kw = Some l.
Proof.
  intros H. unfold field_addresses. rewrite H. apply validate_addresses_dumped.
Qed.

Lemma PersonRead_init_dumped (kw : kwargs) (r : PersonRead.t) e :
  kw !! "id" = Some (VUuid (PersonRead.id r)) →
  kw !! "uni" = Some (opt_str_value (PersonRead.uni r)) →
  kw !! "first_name" = Some (opt_str_value (PersonRead.first_name r)) →
  kw !! "last_name" = Some (opt_str_value (PersonRead.last_name r)) →
  kw !! "email" = Some (opt_str_value (PersonRead.email r)) →
  kw !! "phone" = Some (opt_str_value (PersonRead.phone r)) →
  kw !! "birth_date" = Some (opt_date_value (PersonRead.birth_date r)) →
  kw !! "addresses" = Some (addresses_value (PersonRead.addresses r)) →
  kw !! "created_at" = Some (VDatetime (PersonRead.created_at r)) →
  kw !! "updated_at" = Some (VDatetime (PersonRead.updated_at r)) →
  PersonRead.init kw e = (Returned r, e).
Proof.
  intros Hid H1 H2 H3 H4 H5 H6 H7 Hc Hu. unfold PersonRead.init.
  rewrite bind_run, (field_uuid_dumped _ _ _ _ Hid).
  rewrite bind_run, (field_datetime_dumped _ _ _ _ Hc).
  rewrite bind_run, (field_datetime_dumped _ _ _ _ Hu).
  rewrite (field_opt_str_dumped _ _ _ H1), (field_opt_str_dumped _ _ _ H2),
    (field_opt_str_dumped _ _ _ H3), (field_opt_str_dumped _ _ _ H4),
    (field_opt_str_dumped _ _ _ H5), (field_opt_date_dumped _ _ _ H6),
    (field_addresses_dumped _ _ _ H7).
  by destruct r.
Qed.

Lemma PersonRead_init_create payload e :
  PersonRead.init (PersonCreate.model_dump payload) e =
    (Returned (PersonRead_created payload e), two_readings_later e).
Proof.
  unfold PersonRead.init.
  set (kw := PersonCreate.model_dump payload).
  destruct (field_datetime_twice kw e) as [Hc Hu]; [reflexivity..|].
  rewrite bind_run, (field_uuid_dumped _ _ (PersonCreate.id payload))
    by reflexivity.
  rewrite bind_run, Hc, bind_run, Hu.
  rewrite
    (field_addresses_dumped "addresses" _ (PersonCreate.addresses payload)),
    (field_opt_str_dumped "uni" _ (PersonCreate.uni payload)),
    (field_opt_str_dumped "first_name" _ (PersonCreate.first_name payload)),
    (field_opt_str_dumped "last_name" _ (PersonCreate.last_name payload)),
    (field_opt_str_dumped "email" _ (PersonCreate.email payload)),
    (field_opt_str_dumped "phone" _ (PersonCreate.phone payload)),
    (field_opt_date_dumped "birth_date" _ (PersonCreate.birth_date payload))
    by reflexivity.
  reflexivity.
Qed.

Lemma create_person_run payload w :
  create_person payload w =
    (Returned (PersonRead_created payload (env w)),
     set_persons
       (<[PersonCreate.id payload := PersonRead_created payload (env w)]>
          (persons w))
       (set_env (two_readings_later (env w)) w)).
Proof.
  unfold create_person.
  rewrite bind_run. unfold construct. by rewrite PersonRead_init_create.
Qed.

Lemma update_person_stored person_id update current w :
  persons w !! person_id = Some current →
  update_person person_id update w =
    (Returned (PersonRead_patched current update),
     set_persons
       (<[person_id := PersonRead_patched current update]> (persons w)) w).
Proof.
  intros H. unfold update_person.
  rewrite bind_run, (contains_present persons_db _ current) by done.
  cbn [negb]. rewrite bind_run, (getitem_present _ _ current) by done.
  rewrite bind_run.
  rewrite (construct_pure _ (PersonRead_patched current update)).
  - rewrite bind_run. cbn. unfold getitem. cbn. by rewrite lookup_insert_eq.
  - unfold PersonUpdate.model_dump_exclude_unset.
    apply PersonRead_init_dumped; cbn [PersonRead_patched
      PersonRead.id PersonRead.uni PersonRead.first_name PersonRead.last_name
      PersonRead.email PersonRead.phone PersonRead.birth_date
      PersonRead.addresses PersonRead.created_at PersonRead.updated_at];
      rewrite <- ?(overlay_fmap opt_str_value), <- ?(overlay_fmap opt_date_value),
        <- ?(overlay_fmap addresses_value).
    2-8: apply lookup_merged; reflexivity.
    all: rewrite lookup_merged_foreign by reflexivity; reflexivity.
Qed.

(** ** Reading by identifier *)

Lemma get_by_id_run {V} (d : db V) k msg w :
  (present ← contains d k;
   if negb present then raise (HTTPException 404 msg) else getitem d k) w =
  (match db_get d w !! k with
   | Some v => Returned v
   | None => Raised (HTTPException 404 msg)
   end, w).
Proof.
  destruct (db_get d w !! k) as [v|] eqn:Hk.
  - by rewrite bind_run, (contains_present d k v), (getitem_present d k v).
  - by rewrite bind_run, (contains_absent d k).
Qed.

Lemma get_family_history_run history_id w :
  get_family_history history_id w =
  (match family_histories w !! history_id with
   | Some v => Returned v
   | None => Raised (HTTPException 404 "Family history not found")
   end, w).
Proof. apply (get_by_id_run family_histories_db). Qed.

Lemma get_account_balances_run account_id w :
  get_account_balances account_id w =
  (match account_balances w !! account_id with
   | Some v => Returned v
   | None => Raised (HTTPException 404 "Account balance not found")
   end, w).
Proof. apply (get_by_id_run account_balances_db). Qed.

Lemma get_address_run address_id w :
  get_address address_id w =
  (match addresses w !! address_id with
   | Some v => Returned v
   | None => Raised (HTTPException 404 "Address not found")
   end, w).
Proof. apply (get_by_id_run addresses_db). Qed.

Lemma get_person_run person_id w :
  get_person person_id w =
  (match persons w !! person_id with
   | Some v => Returned v
   | None => Raised (HTTPException 404 "Person not found")
   end, w).
Proof. apply (get_by_id_run persons_db). Qed.

(** ** Listing *)

(** One optional filter of a listing. *)
Lemma elem_of_narrowed {V Q} (q : option Q) (P : Q → V → Prop)
  `{!∀ x v, Decision (P x v)} (l : list V) (v : V) :
  v ∈ match q with
      | Some x => filter (P x) l
      | None => l
      end ↔
  match q with
  | Some x => P x v
  | None => True
  end ∧ v ∈ l.
Proof.
  destruct q; [apply list_elem_of_filter | tauto].
Qed.

Lemma any_city_lives city p : any_city city p ↔ lives_in_city city p.
Proof. unfold any_city, lives_in_city. by rewrite Exists_exists. Qed.

Lemma any_country_lives country p : any_country country p ↔ lives_in_country country p.
Proof. unfold any_country, lives_in_country. by rewrite Exists_exists. Qed.

Lemma balance_eq_filter x p :
  balance_eq x p ↔ AccountBalance_filters (Some x) p.
Proof.
  unfold balance_eq, AccountBalance_filters.
  destruct (AccountBalanceRead.account_balance p) as [y|]; split.
  - intros H. exists y. split; [done|]. by apply Is_true_true.
  - intros (y' & [= <-] & H). by apply Is_true_true.
  - intros [].
  - by intros (y' & [=] & _).
Qed.

Lemma get_family_histories_run father mother sister brother w :
  ∃ results,
    get_family_histories father mother sister brother w = (Returned results, w) ∧
    ∀ p, p ∈ results ↔
         stored_in (family_histories w) p ∧
         FamilyHistory_filters father mother sister brother p.
Proof.
  eexists. split; [reflexivity|]. intros p. cbn.
  unfold FamilyHistory_filters, stored_in.
  rewrite <- elem_of_values.
  destruct father, mother, sister, brother; cbn;
    rewrite ?list_elem_of_filter; tauto.
Qed.

Lemma get_account_balance_run account_balance w :
  ∃ results,
    get_account_balance account_balance w = (Returned results, w) ∧
    ∀ p, p ∈ results ↔
         stored_in (account_balances w) p ∧
         AccountBalance_filters account_balance p.
Proof.
  eexists. split; [reflexivity|]. intros p. cbn.
  unfold stored_in. rewrite <- elem_of_values.
  destruct account_balance as [x|]; cbn.
  - rewrite list_elem_of_filter, balance_eq_filter. tauto.
  - tauto.
Qed.

Lemma list_addresses_run street city state postal_code country w :
  ∃ results,
    list_addresses street city state postal_code country w = (Returned results, w) ∧
    ∀ a, a ∈ results ↔
         stored_in (addresses w) a ∧
         Address_filters street city state postal_code country a.
Proof.
  eexists. split; [reflexivity|]. intros a. cbn.
  unfold Address_filters, stored_in.
  rewrite <- elem_of_values.
  destruct street, city, state, postal_code, country; cbn;
    rewrite ?list_elem_of_filter; tauto.
Qed.

Lemma list_persons_run uni first_name last_name email phone birth_date city country w :
  ∃ results,
    list_persons uni first_name last_name email phone birth_date city country w =
      (Returned results, w) ∧
    ∀ p, p ∈ results ↔
         stored_in (persons w) p ∧
         Person_filters uni first_name last_name email phone birth_date
           city country p.
Proof.
  eexists. split; [reflexivity|]. intros p. cbn.
  unfold Person_filters, stored_in.
  rewrite <- elem_of_values.
  rewrite (elem_of_narrowed country any_country).
  rewrite (elem_of_narrowed city any_city).
  rewrite (elem_of_narrowed birth_date (λ d p, str_opt_date (PersonRead.birth_date p) = d)).
  rewrite (elem_of_narrowed phone (λ x p, PersonRead.phone p = Some x)).
  rewrite (elem_of_narrowed email (λ x p, PersonRead.email p = Some x)).
  rewrite (elem_of_narrowed last_name (λ x p, PersonRead.last_name p = Some x)).
  rewrite (elem_of_narrowed first_name (λ x p, PersonRead.first_name p = Some x)).
  rewrite (elem_of_narrowed uni (λ x p, PersonRead.uni p = Some x)).
  unfold eq_filter.
  destruct city, country; rewrite ?any_city_lives, ?any_country_lives; tauto.
Qed.

(** ** Every case of the mutating handlers *)

Lemma create_family_history_effect payload w :
  create_family_history payload w =
  match family_histories w !! FamilyHistoryCreate.id payload with
  | Some _ =>
      (Raised (HTTPException 400 "Family History with this ID already exists"), w)
  | None =>
      (Returned (FamilyHistoryRead_created payload (env w)),
       set_family_histories
         (<[FamilyHistoryCreate.id payload :=
              FamilyHistoryRead_created payload (env w)]> (family_histories w))
         (set_env (two_readings_later (env w)) w))
  end.
Proof.
  destruct (family_histories w !! FamilyHistoryCreate.id payload) eqn:H.
  - apply create_family_history_duplicate. by rewrite H.
  - by apply create_family_history_fresh.
Qed.

Lemma update_family_history_effect history_id update w :
  update_family_history history_id update w =
  match family_histories w !! history_id with
  | Some current =>
      (Returned (FamilyHistoryRead_patched current update),
       set_family_histories
         (<[history_id := FamilyHistoryRead_patched current update]>
            (family_histories w)) w)
  | None => (Raised (HTTPException 404 "Family history not found"), w)
  end.
Proof.
  destruct (family_histories w !! history_id) eqn:H.
  - by apply update_family_history_stored.
  - by apply update_family_history_unknown.
Qed.

Lemma update_account_balance_effect account_id update w :
  update_account_balance account_id update w =
  match account_balances w !! account_id with
  | Some current =>
      match AccountBalanceRead.account_balance
              (AccountBalanceRead_patched current update) with
      | Some _ =>
          (Returned (AccountBalanceRead_patched current update),
           set_account_balances
             (<[account_id := AccountBalanceRead_patched current update]>
                (account_balances w)) w)
      | None => (Raised (ValidationError "AccountBalanceRead"), w)
      end
  | None => (Raised (HTTPException 404 "Account balance not found"), w)
  end.
Proof.
  destruct (account_balances w !! account_id) eqn:H.
  - by apply update_account_balance_stored.
  - by apply update_account_balance_unknown.
Qed.

Lemma create_address_effect payload w :
  create_address payload w =
  match addresses w !! AddressCreate.id payload with
  | Some _ => (Raised (HTTPException 400 "Address with this ID already exists"), w)
  | None =>
      (Returned (AddressRead_created payload (env w)),
       set_addresses
         (<[AddressCreate.id payload := AddressRead_created payload (env w)]>
            (addresses w))
         (set_env (two_readings_later (env w)) w))
  end.
Proof.
  destruct (addresses w !! AddressCreate.id payload) eqn:H.
  - apply create_address_duplicate. by rewrite H.
  - by apply create_address_fresh.
Qed.

Lemma update_address_effect address_id update w :
  update_address address_id update w =
  match addresses w !! address_id with
  | Some current =>
      (Returned (AddressRead_patched current update),
       set_addresses
         (<[address_id := AddressRead_patched current update]> (addresses w)) w)
  | None => (Raised (HTTPException 404 "Address not found"), w)
  end.
Proof.
  destruct (addresses w !! address_id) eqn:H.
  - by apply update_address_stored.
  - by apply update_address_unknown.
Qed.

Lemma update_person_effect person_id update w :
  update_person person_id update w =
  match persons w !! person_id with
  | Some current =>
      (Returned (PersonRead_patched current update),
       set_persons
         (<[person_id := PersonRead_patched current update]> (persons w)) w)
  | None => (Raised (HTTPException 404 "Person not found"), w)
  end.
Proof.
  destruct (persons w !! person_id) eqn:H.
  - by apply update_person_stored.
  - by apply update_person_unknown.
Qed.

(** * The claims *)

(** C2: for the FamilyHistory and Address stores, a create whose payload
    identifier is already present fails with HTTP 400 ("... already
    exists") and leaves the world as it was: the record stored under that
    identifier and every other entry are unchanged, and no store grows. *)
Theorem create_duplicate_conflict (w : World) :
  (∀ payload,
     is_Some (family_histories w !! FamilyHistoryCreate.id payload) →
     create_family_history payload w =
       (Raised (HTTPException 400 "Family History with this ID already exists"),
        w)) ∧
  (∀ payload,
     is_Some (addresses w !! AddressCreate.id payload) →
     create_address payload w =
       (Raised (HTTPException 400 "Address with this ID already exists"), w)).
Proof.
  split; intros payload H.
  - by apply create_family_history_duplicate.
  - by apply create_address_duplicate.
Qed.

Lemma create_duplicate_conflict_witness :
  create_family_history
    (FamilyHistoryCreate.mk 7 (Some "asthma") None None None) sample_world =
    (Raised (HTTPException 400 "Family History with this ID already exists"),
     sample_world) ∧
  create_address
    (AddressCreate.mk 5 None (Some "Boston") None None None) sample_world =
    (Raised (HTTPException 400 "Address with this ID already exists"),
     sample_world).
Proof.
  destruct (create_duplicate_conflict sample_world) as [Hf Ha].
  split; [apply Hf | apply Ha]; by eexists.
Defined.

(** C3: in each of the four stores, a patch addressed to an identifier
    that is not stored fails with HTTP 404 and leaves the world, hence
    every entry of every store, as it was. *)
Theorem patch_unknown_not_found (w : World) :
  (∀ history_id update,
     family_histories w !! history_id = None →
     update_family_history history_id update w =
       (Raised (HTTPException 404 "Family history not found"), w)) ∧
  (∀ account_id update,
     account_balances w !! account_id = None →
     update_account_balance account_id update w =
       (Raised (HTTPException 404 "Account balance not found"), w)) ∧
  (∀ address_id update,
     addresses w !! address_id = None →
     update_address address_id update w =
       (Raised (HTTPException 404 "Address not found"), w)) ∧
  (∀ person_id update,
     persons w !! person_id = None →
     update_person person_id update w =
       (Raised (HTTPException 404 "Person not found"), w)).
Proof.
  repeat apply conj; intros k u H.
  - by apply update_family_history_unknown.
  - by apply update_account_balance_unknown.
  - by apply update_address_unknown.
  - by apply update_person_unknown.
Qed.

Lemma patch_unknown_not_found_witness :
  update_family_history 8
    (FamilyHistoryUpdate.mk 0 (Some "asthma") None None None {[ "father" ]})
    sample_world =
    (Raised (HTTPException 404 "Family history not found"), sample_world) ∧
  update_account_balance 8
    (AccountBalanceUpdate.mk 0 (Some 1.5%float) {[ "account_balance" ]})
    sample_world =
    (Raised (HTTPException 404 "Account balance not found"), sample_world).
Proof.
  destruct (patch_unknown_not_found sample_world) as (Hf & Hb & _).
  split; [apply Hf | apply Hb]; reflexivity.
Defined.

(** C10: the read operations, get-by-id (whether it returns or raises
    NotFound) and list (under any combination of filters), leave the
    world unchanged: the four dictionaries after the call are the four
    dictionaries before it. *)
Theorem reads_leave_world_unchanged (w : World) :
  (∀ history_id, (get_family_history history_id w).2 = w) ∧
  (∀ account_id, (get_account_balances account_id w).2 = w) ∧
  (∀ address_id, (get_address address_id w).2 = w) ∧
  (∀ person_id, (get_person person_id w).2 = w) ∧
  (∀ father mother sister brother,
     (get_family_histories father mother sister brother w).2 = w) ∧
  (∀ account_balance, (get_account_balance account_balance w).2 = w) ∧
  (∀ street city state postal_code country,
     (list_addresses street city state postal_code country w).2 = w) ∧
  (∀ uni first_name last_name email phone birth_date city country,
     (list_persons uni first_name last_name email phone birth_date city country
        w).2 = w).
Proof.
  repeat apply conj; intros.
  - by rewrite get_family_history_run.
  - by rewrite get_account_balances_run.
  - by rewrite get_address_run.
  - by rewrite get_person_run.
  - reflexivity.
  - reflexivity.
  - reflexivity.
  - reflexivity.
Qed.

(** C7: in each store, the listing returns exactly the stored records that
    satisfy the conjunction of the equality predicates of the filters
    supplied (set equality: a record is listed if and only if it is stored
    and passes every supplied filter); a listing without filters returns
    the values of the dictionary, that is, exactly the stored records.
    Balances are compared as IEEE doubles, birth dates by their text, and
    city and country against the embedded addresses. *)
Theorem list_returns_stored_matching (w : World) :
  (∀ father mother sister brother, ∃ results,
     get_family_histories father mother sister brother w = (Returned results, w) ∧
     ∀ p, p ∈ results ↔
          stored_in (family_histories w) p ∧
          FamilyHistory_filters father mother sister brother p) ∧
  (∀ account_balance, ∃ results,
     get_account_balance account_balance w = (Returned results, w) ∧
     ∀ p, p ∈ results ↔
          stored_in (account_balances w) p ∧
          AccountBalance_filters account_balance p) ∧
  (∀ street city state postal_code country, ∃ results,
     list_addresses street city state postal_code country w =
       (Returned results, w) ∧
     ∀ a, a ∈ results ↔
          stored_in (addresses w) a ∧
          Address_filters street city state postal_code country a) ∧
  (∀ uni first_name last_name email phone birth_date city country, ∃ results,
     list_persons uni first_name last_name email phone birth_date city country w =
       (Returned results, w) ∧
     ∀ p, p ∈ results ↔
          stored_in (persons w) p ∧
          Person_filters uni first_name last_name email phone birth_date
            city country p) ∧
  (∃ results,
     get_family_histories None None None None w = (Returned results, w) ∧
     ∀ p, p ∈ results ↔ stored_in (family_histories w) p) ∧
  (∃ results,
     get_account_balance None w = (Returned results, w) ∧
     ∀ p, p ∈ results ↔ stored_in (account_balances w) p) ∧
  (∃ results,
     list_addresses None None None None None w = (Returned results, w) ∧
     ∀ a, a ∈ results ↔ stored_in (addresses w) a) ∧
  (∃ results,
     list_persons None None None None None None None None w =
       (Returned results, w) ∧
     ∀ p, p ∈ results ↔ stored_in (persons w) p).
Proof.
  split; [intros; apply get_family_histories_run|].
  split; [intros; apply get_account_balance_run|].
  split; [intros; apply list_addresses_run|].
  split; [intros; apply list_persons_run|].
  repeat apply conj; (eexists; split; [reflexivity|]); intros r; cbn;
    apply elem_of_values.
Qed.

(** C8: for every stored person and every city (respectively country)
    filter value, listing persons with that filter alone returns the
    person if and only if at least one element of the person's embedded
    address list has that city (respectively country). *)
Theorem list_persons_by_city_or_country (w : World) :
  (∀ city, ∃ results,
     list_persons None None None None None None (Some city) None w =
       (Returned results, w) ∧
     ∀ p, stored_in (persons w) p →
          (p ∈ results ↔
           ∃ addr, addr ∈ PersonRead.addresses p ∧
                   AddressBase.city addr = Some city)) ∧
  (∀ country, ∃ results,
     list_persons None None None None None None None (Some country) w =
       (Returned results, w) ∧
     ∀ p, stored_in (persons w) p →
          (p ∈ results ↔
           ∃ addr, addr ∈ PersonRead.addresses p ∧
                   AddressBase.country addr = Some country)).
Proof.
  split.
  - intros city.
    destruct (list_persons_run None None None None None None (Some city) None w)
      as (results & Hrun & Hin).
    exists results. split; [done|]. intros p Hp. rewrite Hin.
    unfold Person_filters, eq_filter, lives_in_city. tauto.
  - intros country.
    destruct (list_persons_run None None None None None None None (Some country) w)
      as (results & Hrun & Hin).
    exists results. split; [done|]. intros p Hp. rewrite Hin.
    unfold Person_filters, eq_filter, lives_in_country. tauto.
Qed.

Lemma list_persons_by_city_or_country_witness :
  ∃ results,
    list_persons None None None None None None (Some "Paris") None sample_world =
      (Returned results, sample_world) ∧
    (sample_person ∈ results ↔
     ∃ addr, addr ∈ PersonRead.addresses sample_person ∧
             AddressBase.city addr = Some "Paris").
Proof.
  destruct (list_persons_by_city_or_country sample_world) as [Hcity _].
  destruct (Hcity "Paris") as (results & Hrun & Hin).
  exists results. split; [exact Hrun|].
  apply Hin. exists 9%N. reflexivity.
Defined.

(** C1 (what the code does): in each store, a patch of a stored
    identifier dumps the stored record, overlays the fields that the
    update payload explicitly provided ([model_fields_set]) and leaves the
    prior value of every unset field untouched; when the Read model
    accepts the merged dictionary, the handler returns and stores the
    patched record, whose every field is the update's when the field was
    provided and the stored one otherwise, and a patch with an empty
    payload returns the stored record and leaves the world as it was.
    A family history, an address and a person are always accepted, an
    explicit null included.  An account balance is not: when the overlaid
    balance is null, as after a body that explicitly provides a null
    [account_balance] (which [Optional[float]] admits), the constructor of
    [AccountBalanceRead], which types the field as [float], raises a
    validation error that nothing handles; the provided field is not
    overlaid and the world stays as it was. *)
Theorem patch_overlays_provided_fields (w : World) :
  (∀ history_id current update,
     family_histories w !! history_id = Some current →
     update_family_history history_id update w =
       (Returned (FamilyHistoryRead_patched current update),
        set_family_histories
          (<[history_id := FamilyHistoryRead_patched current update]>
             (family_histories w)) w) ∧
     (FamilyHistoryUpdate.model_fields_set update = ∅ →
      update_family_history history_id update w = (Returned current, w))) ∧
  (∀ account_id current update,
     account_balances w !! account_id = Some current →
     update_account_balance account_id update w =
       match AccountBalanceRead.account_balance
               (AccountBalanceRead_patched current update) with
       | Some _ =>
           (Returned (AccountBalanceRead_patched current update),
            set_account_balances
              (<[account_id := AccountBalanceRead_patched current update]>
                 (account_balances w)) w)
       | None => (Raised (ValidationError "AccountBalanceRead"), w)
       end ∧
     (AccountBalanceUpdate.model_fields_set update = ∅ →
      (update_account_balance account_id update w).2 = w ∧
      (is_Some (AccountBalanceRead.account_balance current) →
       update_account_balance account_id update w = (Returned current, w)))) ∧
  (∀ address_id current update,
     addresses w !! address_id = Some current →
     update_address address_id update w =
       (Returned (AddressRead_patched current update),
        set_addresses
          (<[address_id := AddressRead_patched current update]> (addresses w))
          w) ∧
     (AddressUpdate.model_fields_set update = ∅ →
      update_address address_id update w = (Returned current, w))) ∧
  (∀ person_id current update,
     persons w !! person_id = Some current →
     update_person person_id update w =
       (Returned (PersonRead_patched current update),
        set_persons
          (<[person_id := PersonRead_patched current update]> (persons w)) w) ∧
     (PersonUpdate.model_fields_set update = ∅ →
      update_person person_id update w = (Returned current, w))).
Proof.
  repeat apply conj.
  - intros k cur u H. split; [by apply update_family_history_stored|].
    intros Hfs. rewrite (update_family_history_stored _ _ cur) by done.
    unfold FamilyHistoryRead_patched. rewrite Hfs, !overlay_empty.
    destruct cur, w; cbn in *. by rewrite insert_id.
  - intros k cur u H. split; [by apply update_account_balance_stored|].
    intros Hfs. rewrite (update_account_balance_stored _ _ cur) by done.
    unfold AccountBalanceRead_patched. rewrite Hfs, !overlay_empty.
    destruct cur as [cid [q|] cc cu], w; cbn in *.
    + rewrite insert_id by done. done.
    + split; [done|]. by intros [? ?].
  - intros k cur u H. split; [by apply update_address_stored|].
    intros Hfs. rewrite (update_address_stored _ _ cur) by done.
    unfold AddressRead_patched. rewrite Hfs, !overlay_empty.
    destruct cur, w; cbn in *. by rewrite insert_id.
  - intros k cur u H. split; [by apply update_person_stored|].
    intros Hfs. rewrite (update_person_stored _ _ cur) by done.
    unfold PersonRead_patched. rewrite Hfs, !overlay_empty.
    destruct cur, w; cbn in *. by rewrite insert_id.
Qed.

Lemma patch_overlays_provided_fields_witness :
  update_account_balance 3
    (AccountBalanceUpdate.mk 0 None {[ "account_balance" ]}) sample_world =
    (Raised (ValidationError "AccountBalanceRead"), sample_world) ∧
  update_family_history 7
    (FamilyHistoryUpdate.mk 0 None None None None {[ "father" ]}) sample_world =
    (Returned (FamilyHistoryRead.mk 7 None (Some "diabetes") None None 100 100),
     set_family_histories
       {[ 7%N :=
            FamilyHistoryRead.mk 7 None (Some "diabetes") None None 100 100 ]}
       sample_world) ∧
  update_family_history 7
    (FamilyHistoryUpdate.mk 0 None (Some "asthma") None None {[ "mother" ]})
    sample_world =
    (Returned
       (FamilyHistoryRead.mk 7 (Some "IBS") (Some "asthma") None None 100 100),
     set_family_histories
       {[ 7%N :=
            FamilyHistoryRead.mk 7 (Some "IBS") (Some "asthma") None None 100 100 ]}
       sample_world) ∧
  update_address 5
    (AddressUpdate.mk None (Some "Boston") None None None {[ "city" ]})
    sample_world =
    (Returned
       (AddressRead.mk 5 (Some "5th Ave") (Some "Boston") None None (Some "USA")
          100 100),
     set_addresses
       {[ 5%N :=
            AddressRead.mk 5 (Some "5th Ave") (Some "Boston") None None
              (Some "USA") 100 100 ]}
       sample_world).
Proof.
  destruct (patch_overlays_provided_fields sample_world) as (Hf & Hb & Ha & _).
  split.
  { exact (proj1 (Hb 3%N sample_balance
             (AccountBalanceUpdate.mk 0 None {[ "account_balance" ]}) eq_refl)). }
  split.
  { exact (proj1 (Hf 7%N sample_history
             (FamilyHistoryUpdate.mk 0 None None None None {[ "father" ]})
             eq_refl)). }
  split.
  - exact (proj1 (Hf 7%N sample_history
             (FamilyHistoryUpdate.mk 0 None (Some "asthma") None None
                {[ "mother" ]}) eq_refl)).
  - exact (proj1 (Ha 5%N sample_address
             (AddressUpdate.mk None (Some "Boston") None None None {[ "city" ]})
             eq_refl)).
Defined.

(** C9 (what the code does): in each store, when a create returns a
    record, the identifier of that record is present in the store and a
    get with that identifier right afterwards returns the very record that
    the create returned (and changes nothing).  The record is the only
    one of its store that carries the identifier as long as every record
    of the world sat under its own identifier.  That need not be so: a
    patch of a family history whose body provides an [id] leaves a record
    with that identifier under another key, and after a create under the
    same identifier two stored records carry it. *)
Theorem create_then_get :
  (∀ w payload r w',
     create_family_history payload w = (Returned r, w') →
     family_histories w' !! FamilyHistoryRead.id r = Some r ∧
     get_family_history (FamilyHistoryRead.id r) w' = (Returned r, w') ∧
     (key_is_id w →
      ∀ k r', family_histories w' !! k = Some r' →
              FamilyHistoryRead.id r' = FamilyHistoryRead.id r →
              k = FamilyHistoryRead.id r ∧ r' = r)) ∧
  (∀ w payload r w',
     create_account_balance payload w = (Returned r, w') →
     account_balances w' !! AccountBalanceRead.id r = Some r ∧
     get_account_balances (AccountBalanceRead.id r) w' = (Returned r, w') ∧
     (key_is_id w →
      ∀ k r', account_balances w' !! k = Some r' →
              AccountBalanceRead.id r' = AccountBalanceRead.id r →
              k = AccountBalanceRead.id r ∧ r' = r)) ∧
  (∀ w payload r w',
     create_address payload w = (Returned r, w') →
     addresses w' !! AddressRead.id r = Some r ∧
     get_address (AddressRead.id r) w' = (Returned r, w') ∧
     (key_is_id w →
      ∀ k r', addresses w' !! k = Some r' →
              AddressRead.id r' = AddressRead.id r →
              k = AddressRead.id r ∧ r' = r)) ∧
  (∀ w payload r w',
     create_person payload w = (Returned r, w') →
     persons w' !! PersonRead.id r = Some r ∧
     get_person (PersonRead.id r) w' = (Returned r, w') ∧
     (key_is_id w →
      ∀ k r', persons w' !! k = Some r' →
              PersonRead.id r' = PersonRead.id r →
              k = PersonRead.id r ∧ r' = r)) ∧
  (∃ r w' r',
     create_family_history
       (FamilyHistoryCreate.mk 8 (Some "asthma") None None None)
       rewritten_id_world = (Returned r, w') ∧
     FamilyHistoryRead.id r = 8%N ∧
     family_histories w' !! 8%N = Some r ∧
     family_histories w' !! 7%N = Some r' ∧
     FamilyHistoryRead.id r' = 8%N).
Proof.
  assert (∀ {V} (id_of : V → UUID) (m : gmap UUID V) (key : UUID) (new : V),
            id_of new = key →
            (∀ k v, m !! k = Some v → id_of v = k) →
            ∀ k v, <[key := new]> m !! k = Some v → id_of v = id_of new →
                   k = id_of new ∧ v = new) as Hunique.
  { intros V id_of m key new Hnew Hinv k v Hk Hid.
    apply lookup_insert_Some in Hk as [[<- <-]|[Hne Hk]]; [done|].
    apply Hinv in Hk. congruence. }
  repeat apply conj.
  - intros w payload r w' Hrun.
    rewrite create_family_history_effect in Hrun. case_match; simplify_eq.
    split; [apply lookup_insert_eq|].
    split; [rewrite get_family_history_run; cbn; by rewrite lookup_insert_eq|].
    intros (Hinv & _) k r'. cbn. by apply Hunique.
  - intros w payload r w' Hrun.
    rewrite create_account_balance_run in Hrun. case_match; simplify_eq.
    split; [apply lookup_insert_eq|].
    split; [rewrite get_account_balances_run; cbn; by rewrite lookup_insert_eq|].
    intros (_ & Hinv & _) k r'. cbn. by apply Hunique.
  - intros w payload r w' Hrun.
    rewrite create_address_effect in Hrun. case_match; simplify_eq.
    split; [apply lookup_insert_eq|].
    split; [rewrite get_address_run; cbn; by rewrite lookup_insert_eq|].
    intros (_ & _ & Hinv & _) k r'. cbn. by apply Hunique.
  - intros w payload r w' Hrun.
    rewrite create_person_run in Hrun. simplify_eq.
    split; [apply lookup_insert_eq|].
    split; [rewrite get_person_run; cbn; by rewrite lookup_insert_eq|].
    intros (_ & _ & _ & Hinv) k r'. cbn. by apply Hunique.
  - eexists _, _, _. split; [vm_compute; reflexivity|].
    repeat split; vm_compute; reflexivity.
Qed.

Lemma create_then_get_witness :
  ∃ r w',
    create_family_history
      (FamilyHistoryCreate.mk 8 (Some "asthma") None None None) sample_world =
      (Returned r, w') ∧
    FamilyHistoryRead.id r = 8%N ∧
    family_histories w' !! 8%N = Some r ∧
    get_family_history 8 w' = (Returned r, w') ∧
    ∀ k r', family_histories w' !! k = Some r' →
            FamilyHistoryRead.id r' = 8%N → k = 8%N ∧ r' = r.
Proof.
  destruct create_then_get as (Hf & _).
  assert (key_is_id sample_world) as Hinv.
  { repeat split; intros k r Hk; cbn in Hk;
      apply lookup_singleton_Some in Hk as [<- <-]; reflexivity. }
  assert (∃ r w',
            create_family_history
              (FamilyHistoryCreate.mk 8 (Some "asthma") None None None)
              sample_world = (Returned r, w') ∧
            FamilyHistoryRead.id r = 8%N) as (r & w' & Hrun & Hid).
  { eexists _, _. split; [vm_compute; reflexivity | reflexivity]. }
  destruct (Hf sample_world _ r w' Hrun) as (Hin & Hget & Huniq).
  exists r, w'. rewrite Hid in Hin, Hget, Huniq.
  split; [exact Hrun|]. split; [exact Hid|]. split; [exact Hin|].
  split; [exact Hget|]. exact (Huniq Hinv).
Defined.

(** C4 (what the code does): [FamilyHistoryUpdate] and
    [AccountBalanceUpdate] inherit [id] from their base classes, so a
    patch whose body provides an [id] stores, under the path identifier,
    a record that carries the identifier of the body.  The identifier of a
    stored record is therefore not immutable, and a key of the store need
    not equal the [id] of the record it holds.  A patch whose body has no
    [id] keeps the identifier of the stored record. *)
Theorem patch_rewrites_identifier (w : World) :
  (∀ history_id current update,
     family_histories w !! history_id = Some current →
     "id" ∈ FamilyHistoryUpdate.model_fields_set update →
     ∃ merged w',
       update_family_history history_id update w = (Returned merged, w') ∧
       family_histories w' !! history_id = Some merged ∧
       get_family_history history_id w' = (Returned merged, w') ∧
       FamilyHistoryRead.id merged = FamilyHistoryUpdate.id update) ∧
  (∀ account_id current update merged w',
     account_balances w !! account_id = Some current →
     "id" ∈ AccountBalanceUpdate.model_fields_set update →
     update_account_balance account_id update w = (Returned merged, w') →
     account_balances w' !! account_id = Some merged ∧
     AccountBalanceRead.id merged = AccountBalanceUpdate.id update) ∧
  (∀ history_id current update merged w',
     family_histories w !! history_id = Some current →
     "id" ∉ FamilyHistoryUpdate.model_fields_set update →
     update_family_history history_id update w = (Returned merged, w') →
     FamilyHistoryRead.id merged = FamilyHistoryRead.id current) ∧
  (∀ account_id current update merged w',
     account_balances w !! account_id = Some current →
     "id" ∉ AccountBalanceUpdate.model_fields_set update →
     update_account_balance account_id update w = (Returned merged, w') →
     AccountBalanceRead.id merged = AccountBalanceRead.id current).
Proof.
  repeat apply conj.
  - intros k cur u H Hid. eexists _, _.
    split; [by apply update_family_history_stored|].
    assert (family_histories
              (set_family_histories
                 (<[k := FamilyHistoryRead_patched cur u]> (family_histories w)) w)
              !! k = Some (FamilyHistoryRead_patched cur u)) as Hin
      by apply lookup_insert_eq.
    split; [done|]. split; [by rewrite get_family_history_run, Hin|].
    cbn. by apply overlay_set.
  - intros k cur u merged w' H Hid Hrun.
    rewrite (update_account_balance_stored _ _ cur) in Hrun by done.
    destruct (AccountBalanceRead.account_balance
                (AccountBalanceRead_patched cur u)); [|discriminate].
    injection Hrun as <- <-. split; [apply lookup_insert_eq|].
    cbn. by apply overlay_set.
  - intros k cur u merged w' H Hid Hrun.
    rewrite (update_family_history_stored _ _ cur) in Hrun by done.
    injection Hrun as <- <-. cbn. by apply overlay_unset.
  - intros k cur u merged w' H Hid Hrun.
    rewrite (update_account_balance_stored _ _ cur) in Hrun by done.
    destruct (AccountBalanceRead.account_balance
                (AccountBalanceRead_patched cur u)); [|discriminate].
    injection Hrun as <- <-. cbn. by apply overlay_unset.
Qed.

Lemma patch_rewrites_identifier_witness :
  ∃ merged w',
    update_family_history 7
      (FamilyHistoryUpdate.mk 8 None None None None {[ "id" ]}) sample_world =
      (Returned merged, w') ∧
    get_family_history 7 w' = (Returned merged, w') ∧
    FamilyHistoryRead.id merged = 8%N ∧
    FamilyHistoryRead.id merged ≠ 7%N.
Proof.
  destruct (patch_rewrites_identifier sample_world) as (Hf & _).
  destruct (Hf 7%N sample_history
              (FamilyHistoryUpdate.mk 8 None None None None {[ "id" ]})
              eq_refl ltac:(set_solver))
    as (merged & w' & Hrun & _ & Hget & Hid).
  exists merged, w'. repeat apply conj; [exact Hrun | exact Hget | exact Hid |].
  rewrite Hid. discriminate.
Defined.

(** C5 (what the code does): a patch that returns dumps the stored record,
    timestamps included, and no update model has a timestamp field, so the
    record it stores keeps both [created_at] and [updated_at] of the
    record it replaces, and the clock is not read at all. *)
Theorem patch_keeps_timestamps (w : World) :
  (∀ history_id current update merged w',
     family_histories w !! history_id = Some current →
     update_family_history history_id update w = (Returned merged, w') →
     FamilyHistoryRead.updated_at merged = FamilyHistoryRead.updated_at current ∧
     FamilyHistoryRead.created_at merged = FamilyHistoryRead.created_at current ∧
     env w' = env w) ∧
  (∀ account_id current update merged w',
     account_balances w !! account_id = Some current →
     update_account_balance account_id update w = (Returned merged, w') →
     AccountBalanceRead.updated_at merged = AccountBalanceRead.updated_at current ∧
     AccountBalanceRead.created_at merged = AccountBalanceRead.created_at current ∧
     env w' = env w) ∧
  (∀ address_id current update merged w',
     addresses w !! address_id = Some current →
     update_address address_id update w = (Returned merged, w') →
     AddressRead.updated_at merged = AddressRead.updated_at current ∧
     AddressRead.created_at merged = AddressRead.created_at current ∧
     env w' = env w) ∧
  (∀ person_id current update merged w',
     persons w !! person_id = Some current →
     update_person person_id update w = (Returned merged, w') →
     PersonRead.updated_at merged = PersonRead.updated_at current ∧
     PersonRead.created_at merged = PersonRead.created_at current ∧
     env w' = env w).
Proof.
  repeat apply conj; intros k cur u merged w' H Hrun.
  - rewrite (update_family_history_stored _ _ cur) in Hrun by done.
    by injection Hrun as <- <-.
  - rewrite (update_account_balance_stored _ _ cur) in Hrun by done.
    destruct (AccountBalanceRead.account_balance
                (AccountBalanceRead_patched cur u)); [|discriminate].
    by injection Hrun as <- <-.
  - rewrite (update_address_stored _ _ cur) in Hrun by done.
    by injection Hrun as <- <-.
  - rewrite (update_person_stored _ _ cur) in Hrun by done.
    by injection Hrun as <- <-.
Qed.

Lemma patch_keeps_timestamps_witness :
  update_family_history 7
    (FamilyHistoryUpdate.mk 0 (Some "asthma") None None None {[ "father" ]})
    sample_world =
    (Returned
       (FamilyHistoryRead.mk 7 (Some "asthma") (Some "diabetes") None None
          100 100),
     set_family_histories
       {[ 7%N :=
            FamilyHistoryRead.mk 7 (Some "asthma") (Some "diabetes") None None
              100 100 ]}
       sample_world) ∧
  FamilyHistoryRead.updated_at
    (FamilyHistoryRead.mk 7 (Some "asthma") (Some "diabetes") None None 100 100) =
    FamilyHistoryRead.updated_at sample_history ∧
  utcnow_calls
    (env (set_family_histories
            {[ 7%N :=
                 FamilyHistoryRead.mk 7 (Some "asthma") (Some "diabetes") None
                   None 100 100 ]}
            sample_world)) =
    utcnow_calls (env sample_world).
Proof.
  destruct (patch_keeps_timestamps sample_world) as (Hf & _).
  assert (update_family_history 7
            (FamilyHistoryUpdate.mk 0 (Some "asthma") None None None {[ "father" ]})
            sample_world =
          (Returned
             (FamilyHistoryRead.mk 7 (Some "asthma") (Some "diabetes") None None
                100 100),
           set_family_histories
             {[ 7%N :=
                  FamilyHistoryRead.mk 7 (Some "asthma") (Some "diabetes") None
                    None 100 100 ]}
             sample_world)) as Hrun by (vm_compute; reflexivity).
  destruct (Hf 7%N sample_history _ _ _ eq_refl Hrun) as (Hu & _ & He).
  split; [exact Hrun|]. split; [exact Hu | by rewrite He].
Defined.

(** C6 (what the code does): the AccountBalance and Person creates
    perform no duplicate-identifier check and never fail with an HTTP
    error.  For a payload whose identifier is already present in the
    store, the create of a Person, and that of an AccountBalance whose
    payload carries a balance, returns the record built from the payload
    (its identifier and fields, stamped with the next two readings of the
    clock) and stores it in the place of the record that was there: the
    store keeps its keys and does not grow.  An AccountBalance payload
    without a balance, which the request model admits
    ([account_balance: float = Field(None)]), does not succeed: the
    constructor of [AccountBalanceRead] raises a validation error that
    nothing handles, and the record stored under the identifier is not
    replaced. *)
Theorem create_overwrites_duplicate (w : World) :
  (∀ payload old balance,
     account_balances w !! AccountBalanceCreate.id payload = Some old →
     AccountBalanceCreate.account_balance payload = Some balance →
     ∃ r w',
       create_account_balance payload w = (Returned r, w') ∧
       r = AccountBalanceRead.mk (AccountBalanceCreate.id payload) (Some balance)
             (utcnow_src (env w) (utcnow_calls (env w)))
             (utcnow_src (env w) (S (utcnow_calls (env w)))) ∧
       account_balances w' =
         <[AccountBalanceCreate.id payload := r]> (account_balances w) ∧
       account_balances w' !! AccountBalanceCreate.id payload = Some r ∧
       dom (account_balances w') = dom (account_balances w) ∧
       size (account_balances w') = size (account_balances w)) ∧
  (∀ payload old,
     account_balances w !! AccountBalanceCreate.id payload = Some old →
     AccountBalanceCreate.account_balance payload = None →
     ∃ w',
       create_account_balance payload w =
         (Raised (ValidationError "AccountBalanceRead"), w') ∧
       same_databases w w' ∧
       account_balances w' !! AccountBalanceCreate.id payload = Some old) ∧
  (∀ payload old,
     persons w !! PersonCreate.id payload = Some old →
     ∃ r w',
       create_person payload w = (Returned r, w') ∧
       r = PersonRead.mk (PersonCreate.id payload) (PersonCreate.uni payload)
             (PersonCreate.first_name payload) (PersonCreate.last_name payload)
             (PersonCreate.email payload) (PersonCreate.phone payload)
             (PersonCreate.birth_date payload) (PersonCreate.addresses payload)
             (utcnow_src (env w) (utcnow_calls (env w)))
             (utcnow_src (env w) (S (utcnow_calls (env w)))) ∧
       persons w' = <[PersonCreate.id payload := r]> (persons w) ∧
       persons w' !! PersonCreate.id payload = Some r ∧
       dom (persons w') = dom (persons w) ∧
       size (persons w') = size (persons w)) ∧
  (∀ payload status_code detail,
     (create_account_balance payload w).1 ≠
       Raised (HTTPException status_code detail)) ∧
  (∀ payload status_code detail,
     (create_person payload w).1 ≠ Raised (HTTPException status_code detail)).
Proof.
  assert (∀ {V} (m : gmap UUID V) k v v',
            m !! k = Some v →
            dom (<[k := v']> m) = dom m ∧ size (<[k := v']> m) = size m)
    as Hsame.
  { intros V m k v v' Hk.
    assert (dom (<[k := v']> m) = dom m) as Hdom.
    { rewrite dom_insert_L. apply (elem_of_dom_2 (D := gset N)) in Hk.
      apply subseteq_union_1_L. by apply singleton_subseteq_l. }
    split; [exact Hdom|]. by rewrite <- !size_dom, Hdom. }
  repeat apply conj.
  - intros payload old q Hold Hq. eexists _, _.
    rewrite create_account_balance_run, Hq.
    split; [reflexivity|].
    split; [unfold AccountBalanceRead_created; by rewrite Hq|].
    split; [reflexivity|]. split; [apply lookup_insert_eq|].
    cbn. by eapply Hsame.
  - intros payload old Hold Hq. eexists.
    rewrite create_account_balance_run, Hq.
    split; [reflexivity|]. split; [by repeat split | exact Hold].
  - intros payload old Hold. eexists _, _.
    rewrite create_person_run.
    split; [reflexivity|]. split; [reflexivity|].
    split; [reflexivity|]. split; [apply lookup_insert_eq|].
    cbn. by eapply Hsame.
  - intros payload s d. rewrite create_account_balance_run.
    by destruct (AccountBalanceCreate.account_balance payload).
  - intros payload s d. by rewrite create_person_run.
Qed.

Lemma create_overwrites_duplicate_witness :
  (∃ w',
     create_account_balance (AccountBalanceCreate.mk 3 None) sample_world =
       (Raised (ValidationError "AccountBalanceRead"), w') ∧
     account_balances w' !! 3%N = Some sample_balance) ∧
  (∃ r w',
     create_account_balance (AccountBalanceCreate.mk 3 (Some 42.5%float))
       sample_world = (Returned r, w') ∧
     r = AccountBalanceRead.mk 3 (Some 42.5%float) 0 1 ∧
     account_balances w' !! 3%N = Some r ∧
     size (account_balances w') = size (account_balances sample_world)).
Proof.
  destruct (create_overwrites_duplicate sample_world) as (Hb & Hnone & _).
  split.
  - destruct (Hnone (AccountBalanceCreate.mk 3 None) sample_balance
                eq_refl eq_refl) as (w' & Hrun & _ & Hold).
    exists w'. split; [exact Hrun | exact Hold].
  - destruct (Hb (AccountBalanceCreate.mk 3 (Some 42.5%float)) sample_balance
                42.5%float eq_refl eq_refl)
      as (r & w' & Hrun & Hr & _ & Hin & _ & Hsize).
    exists r, w'. split; [exact Hrun|]. split; [exact Hr|].
    split; [exact Hin | exact Hsize].
Defined.

(** * Further properties of the handlers *)

(** Overlaying the same update twice is overlaying it once. *)
Lemma overlay_twice {A} fs k (new old : A) :
  overlay fs k new (overlay fs k new old) = overlay fs k new old.
Proof. unfold overlay. by case_decide. Qed.

Lemma FamilyHistoryRead_patched_twice current update :
  FamilyHistoryRead_patched (FamilyHistoryRead_patched current update) update =
  FamilyHistoryRead_patched current update.
Proof. unfold FamilyHistoryRead_patched. cbn. by rewrite !overlay_twice. Qed.

Lemma AccountBalanceRead_patched_twice current update :
  AccountBalanceRead_patched (AccountBalanceRead_patched current update) update =
  AccountBalanceRead_patched current update.
Proof. unfold AccountBalanceRead_patched. cbn. by rewrite !overlay_twice. Qed.

Lemma AddressRead_patched_twice current update :
  AddressRead_patched (AddressRead_patched current update) update =
  AddressRead_patched current update.
Proof. unfold AddressRead_patched. cbn. by rewrite !overlay_twice. Qed.

Lemma PersonRead_patched_twice current update :
  PersonRead_patched (PersonRead_patched current update) update =
  PersonRead_patched current update.
Proof. unfold PersonRead_patched. cbn. by rewrite !overlay_twice. Qed.

(** ** The extras *)

(** X1: a get by identifier returns the stored record when the identifier
    is a key of the dictionary and fails with HTTP 404 otherwise, in each
    of the four stores; the lookup behind it never raises [KeyError]. *)
Theorem get_by_id_outcome (w : World) :
  (∀ k, get_family_history k w =
        (match family_histories w !! k with
         | Some r => Returned r
         | None => Raised (HTTPException 404 "Family history not found")
         end, w)) ∧
  (∀ k, get_account_balances k w =
        (match account_balances w !! k with
         | Some r => Returned r
         | None => Raised (HTTPException 404 "Account balance not found")
         end, w)) ∧
  (∀ k, get_address k w =
        (match addresses w !! k with
         | Some r => Returned r
         | None => Raised (HTTPException 404 "Address not found")
         end, w)) ∧
  (∀ k, get_person k w =
        (match persons w !! k with
         | Some r => Returned r
         | None => Raised (HTTPException 404 "Person not found")
         end, w)).
Proof.
  repeat apply conj; intros k.
  - apply get_family_history_run.
  - apply get_account_balances_run.
  - apply get_address_run.
  - apply get_person_run.
Qed.

(** X2: a patch is idempotent: serving the same patch a second time gives
    the same outcome as the first and leaves the world where the first
    left it, in each store and whatever the first outcome was. *)
Theorem patch_idempotent (w : World) :
  (∀ k u, update_family_history k u (update_family_history k u w).2 =
          update_family_history k u w) ∧
  (∀ k u, update_account_balance k u (update_account_balance k u w).2 =
          update_account_balance k u w) ∧
  (∀ k u, update_address k u (update_address k u w).2 = update_address k u w) ∧
  (∀ k u, update_person k u (update_person k u w).2 = update_person k u w).
Proof.
  repeat apply conj; intros k u.
  - rewrite (update_family_history_effect k u w).
    destruct (family_histories w !! k) as [cur|] eqn:H; cbn [snd].
    + rewrite update_family_history_effect. cbn.
      rewrite lookup_insert_eq, FamilyHistoryRead_patched_twice,
        insert_insert_eq. reflexivity.
    + by rewrite update_family_history_effect, H.
  - rewrite (update_account_balance_effect k u w).
    destruct (account_balances w !! k) as [cur|] eqn:H; cbn [snd].
    + destruct (AccountBalanceRead.account_balance
                  (AccountBalanceRead_patched cur u)) eqn:Hb; cbn [snd].
      * rewrite update_account_balance_effect.
        cbn [set_account_balances account_balances].
        rewrite lookup_insert_eq, AccountBalanceRead_patched_twice, Hb,
          insert_insert_eq. reflexivity.
      * by rewrite update_account_balance_effect, H, Hb.
    + by rewrite update_account_balance_effect, H.
  - rewrite (update_address_effect k u w).
    destruct (addresses w !! k) as [cur|] eqn:H; cbn [snd].
    + rewrite update_address_effect. cbn.
      rewrite lookup_insert_eq, AddressRead_patched_twice, insert_insert_eq.
      reflexivity.
    + by rewrite update_address_effect, H.
  - rewrite (update_person_effect k u w).
    destruct (persons w !! k) as [cur|] eqn:H; cbn [snd].
    + rewrite update_person_effect. cbn.
      rewrite lookup_insert_eq, PersonRead_patched_twice, insert_insert_eq.
      reflexivity.
    + by rewrite update_person_effect, H.
Qed.

(** ** Serving a request *)

Lemma respond_run {A} (f : A → response) (m : M World A) w :
  respond f m w =
  match m w with
  | (Returned a, w') => (Returned (f a), w')
  | (Raised e, w') => (Raised e, w')
  end.
Proof. reflexivity. Qed.

Lemma make_health_run answer echo path_echo w :
  make_health answer echo path_echo w =
  (match answer with
   | Resolved ip_address =>
       Returned
         (Health.mk 200 "OK" (IsoformatZ (first_reading (env w))) ip_address
            echo path_echo)
   | Unresolved errno strerror => Raised (OSError errno strerror)
   end,
   set_env
     (mkEnv (utcnow_src (env w)) (S (utcnow_calls (env w))) (uuid4_src (env w))
        (uuid4_calls (env w))) w).
Proof. by destruct answer. Qed.

(** Rewrites the handler behind a served request into its cases. *)
Ltac serve_cases :=
  unfold serve; rewrite respond_run;
  try first
    [ rewrite create_family_history_effect
    | rewrite update_family_history_effect
    | rewrite get_family_history_run
    | rewrite create_account_balance_run
    | rewrite update_account_balance_effect
    | rewrite get_account_balances_run
    | rewrite create_address_effect
    | rewrite update_address_effect
    | rewrite get_address_run
    | rewrite create_person_run
    | rewrite update_person_effect
    | rewrite get_person_run
    | unfold get_health_no_path; rewrite make_health_run
    | unfold get_health_with_path; rewrite make_health_run
    | match goal with
      | |- context [get_family_histories ?f ?m ?s ?b ?w] =>
          destruct (get_family_histories_run f m s b w) as (? & -> & _)
      | |- context [get_account_balance ?x ?w] =>
          destruct (get_account_balance_run x w) as (? & -> & _)
      | |- context [list_addresses ?s ?c ?st ?pc ?co ?w] =>
          destruct (list_addresses_run s c st pc co w) as (? & -> & _)
      | |- context [list_persons ?u ?f ?l ?e ?p ?b ?c ?co ?w] =>
          destruct (list_persons_run u f l e p b c co w) as (? & -> & _)
      end
    | unfold root; cbn ].

(** X3: a request that ends in an exception, whichever it is, leaves the
    four dictionaries as they were: no handler stores anything before the
    point where it can still fail. *)
Theorem failure_leaves_databases (q : request) (w : World) (e : exn) :
  (serve q w).1 = Raised e → same_databases w (serve q w).2.
Proof.
  destruct q; serve_cases; repeat case_match; simplify_eq/=;
    try discriminate; intros _; by repeat split.
Qed.

Lemma failure_leaves_databases_witness :
  (serve (PostAccountBalance (AccountBalanceCreate.mk 3 None)) sample_world).1 =
    Raised (ValidationError "AccountBalanceRead") ∧
  same_databases sample_world
    (serve (PostAccountBalance (AccountBalanceCreate.mk 3 None)) sample_world).2.
Proof.
  assert ((serve (PostAccountBalance (AccountBalanceCreate.mk 3 None))
             sample_world).1 = Raised (ValidationError "AccountBalanceRead"))
    as Hraised by (vm_compute; reflexivity).
  split; [exact Hraised|].
  exact (failure_leaves_databases _ _ _ Hraised).
Defined.

(** X4: the only exceptions that a request can end in are the HTTP error
    of its own route (400 on a create of FamilyHistory or Address, 404 on
    a get or a patch by identifier), the validation error of the Read
    model that a create or a patch constructs (never for a family
    history) and, on a health route, the error with which the resolver
    answered.  The listings and the root route never raise, a health
    route raises only when the name does not resolve, and the dictionary
    lookups of the handlers never raise [KeyError]. *)
Theorem exceptions_of_routes (q : request) (w : World) (e : exn) :
  (serve q w).1 = Raised e → may_raise q e.
Proof.
  destruct q; serve_cases; repeat case_match; simplify_eq/=;
    try discriminate; intros [= <-]; eauto.
Qed.

Lemma exceptions_of_routes_witness :
  (serve (PatchAccountBalance 3
            (AccountBalanceUpdate.mk 0 None {[ "account_balance" ]}))
     sample_world).1 = Raised (ValidationError "AccountBalanceRead") ∧
  may_raise
    (PatchAccountBalance 3
       (AccountBalanceUpdate.mk 0 None {[ "account_balance" ]}))
    (ValidationError "AccountBalanceRead") ∧
  (serve (GetHealth (Unresolved (-2) "Name or service not known") None)
     sample_world).1 = Raised (OSError (-2) "Name or service not known") ∧
  may_raise (GetHealth (Unresolved (-2) "Name or service not known") None)
    (OSError (-2) "Name or service not known").
Proof.
  assert ((serve (PatchAccountBalance 3
                    (AccountBalanceUpdate.mk 0 None {[ "account_balance" ]}))
             sample_world).1 = Raised (ValidationError "AccountBalanceRead"))
    as Hraised by (vm_compute; reflexivity).
  assert ((serve (GetHealth (Unresolved (-2) "Name or service not known") None)
             sample_world).1 =
          Raised (OSError (-2) "Name or service not known"))
    as Hhealth by (vm_compute; reflexivity).
  split; [exact Hraised|].
  split; [exact (exceptions_of_routes _ _ _ Hraised)|].
  split; [exact Hhealth|].
  exact (exceptions_of_routes _ _ _ Hhealth).
Defined.

(** X5: a create or a patch changes nothing but the entry of its own
    dictionary under the identifier it addresses (the payload's on a
    create, the path's on a patch): every other entry of that dictionary
    and the three other dictionaries are what they were, whatever the
    outcome. *)
Theorem writes_touch_one_entry (w : World) :
  (∀ payload,
     only_family_history (FamilyHistoryCreate.id payload) w
       (create_family_history payload w).2) ∧
  (∀ k u, only_family_history k w (update_family_history k u w).2) ∧
  (∀ payload,
     only_account_balance (AccountBalanceCreate.id payload) w
       (create_account_balance payload w).2) ∧
  (∀ k u, only_account_balance k w (update_account_balance k u w).2) ∧
  (∀ payload,
     only_address (AddressCreate.id payload) w (create_address payload w).2) ∧
  (∀ k u, only_address k w (update_address k u w).2) ∧
  (∀ payload, only_person (PersonCreate.id payload) w (create_person payload w).2) ∧
  (∀ k u, only_person k w (update_person k u w).2).
Proof.
  repeat apply conj; intros.
  - rewrite create_family_history_effect. case_match; cbn;
      repeat split; try done; intros; cbn; first [by rewrite lookup_insert_ne | done].
  - rewrite update_family_history_effect. case_match; cbn;
      repeat split; try done; intros; cbn; first [by rewrite lookup_insert_ne | done].
  - rewrite create_account_balance_run. case_match; cbn;
      repeat split; try done; intros; cbn; first [by rewrite lookup_insert_ne | done].
  - rewrite update_account_balance_effect. repeat case_match; cbn;
      repeat split; try done; intros; cbn; first [by rewrite lookup_insert_ne | done].
  - rewrite create_address_effect. case_match; cbn;
      repeat split; try done; intros; cbn; first [by rewrite lookup_insert_ne | done].
  - rewrite update_address_effect. case_match; cbn;
      repeat split; try done; intros; cbn; first [by rewrite lookup_insert_ne | done].
  - rewrite create_person_run. cbn.
    repeat split; try done; intros; cbn; first [by rewrite lookup_insert_ne | done].
  - rewrite update_person_effect. case_match; cbn;
      repeat split; try done; intros; cbn; first [by rewrite lookup_insert_ne | done].
Qed.

(** X6: after a patch that returns, a get by the same identifier returns
    the record that the patch returned, in each store. *)
Theorem patch_then_get (w : World) :
  (∀ k u merged w',
     update_family_history k u w = (Returned merged, w') →
     get_family_history k w' = (Returned merged, w')) ∧
  (∀ k u merged w',
     update_account_balance k u w = (Returned merged, w') →
     get_account_balances k w' = (Returned merged, w')) ∧
  (∀ k u merged w',
     update_address k u w = (Returned merged, w') →
     get_address k w' = (Returned merged, w')) ∧
  (∀ k u merged w',
     update_person k u w = (Returned merged, w') →
     get_person k w' = (Returned merged, w')).
Proof.
  repeat apply conj; intros k u merged w' Hrun.
  - rewrite update_family_history_effect in Hrun.
    case_match; simplify_eq. rewrite get_family_history_run. cbn.
    by rewrite lookup_insert_eq.
  - rewrite update_account_balance_effect in Hrun.
    repeat case_match; simplify_eq. rewrite get_account_balances_run. cbn.
    by rewrite lookup_insert_eq.
  - rewrite update_address_effect in Hrun.
    case_match; simplify_eq. rewrite get_address_run. cbn.
    by rewrite lookup_insert_eq.
  - rewrite update_person_effect in Hrun.
    case_match; simplify_eq. rewrite get_person_run. cbn.
    by rewrite lookup_insert_eq.
Qed.

Lemma patch_then_get_witness :
  update_account_balance 3
    (AccountBalanceUpdate.mk 0 (Some 42.5%float) {[ "account_balance" ]})
    sample_world =
    (Returned (AccountBalanceRead.mk 3 (Some 42.5%float) 100 100),
     set_account_balances
       {[ 3%N := AccountBalanceRead.mk 3 (Some 42.5%float) 100 100 ]}
       sample_world) ∧
  get_account_balances 3
    (set_account_balances
       {[ 3%N := AccountBalanceRead.mk 3 (Some 42.5%float) 100 100 ]}
       sample_world) =
    (Returned (AccountBalanceRead.mk 3 (Some 42.5%float) 100 100),
     set_account_balances
       {[ 3%N := AccountBalanceRead.mk 3 (Some 42.5%float) 100 100 ]}
       sample_world).
Proof.
  destruct (patch_then_get sample_world) as (_ & Hb & _).
  assert (update_account_balance 3
            (AccountBalanceUpdate.mk 0 (Some 42.5%float) {[ "account_balance" ]})
            sample_world =
          (Returned (AccountBalanceRead.mk 3 (Some 42.5%float) 100 100),
           set_account_balances
             {[ 3%N := AccountBalanceRead.mk 3 (Some 42.5%float) 100 100 ]}
             sample_world)) as Hrun by (vm_compute; reflexivity).
  split; [exact Hrun | exact (Hb _ _ _ _ Hrun)].
Defined.

(** X7: dumping a Read record and constructing the Read model from the
    dump gives the record back and reads neither the clock nor the
    identifier generator; for an account balance this holds when the
    record holds a float, and the constructor raises otherwise. *)
Theorem read_dump_round_trip (e : Env) :
  (∀ r, FamilyHistoryRead.init (FamilyHistoryRead.model_dump r) e =
        (Returned r, e)) ∧
  (∀ r, AccountBalanceRead.init (AccountBalanceRead.model_dump r) e =
        (match AccountBalanceRead.account_balance r with
         | Some _ => Returned r
         | None => Raised (ValidationError "AccountBalanceRead")
         end, e)) ∧
  (∀ r, AddressRead.init (AddressRead.model_dump r) e = (Returned r, e)) ∧
  (∀ r, PersonRead.init (PersonRead.model_dump r) e = (Returned r, e)).
Proof.
  repeat apply conj; intros r.
  - by apply FamilyHistoryRead_init_dumped.
  - by apply AccountBalanceRead_init_dumped.
  - by apply AddressRead_init_dumped.
  - by apply PersonRead_init_dumped.
Qed.

(** X8: a create of a FamilyHistory or an Address under an identifier that
    is not yet stored returns a record that carries the identifier and
    the fields of the payload, with [created_at] the next reading of the
    clock and [updated_at] the reading after it; the dictionary gains
    exactly that entry, so its size grows by one, and two readings of the
    clock are consumed. *)
Theorem create_fresh_grows (w : World) :
  (∀ payload,
     family_histories w !! FamilyHistoryCreate.id payload = None →
     ∃ r w',
       create_family_history payload w = (Returned r, w') ∧
       FamilyHistoryRead.id r = FamilyHistoryCreate.id payload ∧
       FamilyHistoryRead.father r = FamilyHistoryCreate.father payload ∧
       FamilyHistoryRead.mother r = FamilyHistoryCreate.mother payload ∧
       FamilyHistoryRead.sister r = FamilyHistoryCreate.sister payload ∧
       FamilyHistoryRead.brother r = FamilyHistoryCreate.brother payload ∧
       FamilyHistoryRead.created_at r =
         utcnow_src (env w) (utcnow_calls (env w)) ∧
       FamilyHistoryRead.updated_at r =
         utcnow_src (env w) (S (utcnow_calls (env w))) ∧
       family_histories w' =
         <[FamilyHistoryCreate.id payload := r]> (family_histories w) ∧
       size (family_histories w') = S (size (family_histories w)) ∧
       utcnow_calls (env w') = S (S (utcnow_calls (env w)))) ∧
  (∀ payload,
     addresses w !! AddressCreate.id payload = None →
     ∃ r w',
       create_address payload w = (Returned r, w') ∧
       AddressRead.id r = AddressCreate.id payload ∧
       AddressRead.street r = AddressCreate.street payload ∧
       AddressRead.city r = AddressCreate.city payload ∧
       AddressRead.state r = AddressCreate.state payload ∧
       AddressRead.postal_code r = AddressCreate.postal_code payload ∧
       AddressRead.country r = AddressCreate.country payload ∧
       AddressRead.created_at r = utcnow_src (env w) (utcnow_calls (env w)) ∧
       AddressRead.updated_at r =
         utcnow_src (env w) (S (utcnow_calls (env w))) ∧
       addresses w' = <[AddressCreate.id payload := r]> (addresses w) ∧
       size (addresses w') = S (size (addresses w)) ∧
       utcnow_calls (env w') = S (S (utcnow_calls (env w)))).
Proof.
  split; intros payload Hfresh; eexists _, _.
  - rewrite create_family_history_fresh by done.
    split; [reflexivity|]. repeat (split; [reflexivity|]).
    split; [|reflexivity]. cbn. by apply map_size_insert_None.
  - rewrite create_address_fresh by done.
    split; [reflexivity|]. repeat (split; [reflexivity|]).
    split; [|reflexivity]. cbn. by apply map_size_insert_None.
Qed.

Lemma create_fresh_grows_witness :
  ∃ r w',
    create_family_history
      (FamilyHistoryCreate.mk 8 (Some "asthma") None None None) sample_world =
      (Returned r, w') ∧
    FamilyHistoryRead.father r = Some "asthma" ∧
    FamilyHistoryRead.created_at r = 0%Z ∧
    FamilyHistoryRead.updated_at r = 1%Z ∧
    size (family_histories w') = 2%nat.
Proof.
  destruct (create_fresh_grows sample_world) as (Hf & _).
  destruct (Hf (FamilyHistoryCreate.mk 8 (Some "asthma") None None None) eq_refl)
    as (r & w' & Hrun & _ & Hfa & _ & _ & _ & Hc & Hu & _ & Hsize & _).
  exists r, w'. split; [exact Hrun|]. split; [exact Hfa|].
  split; [exact Hc|]. split; [exact Hu|]. exact Hsize.
Defined.

(** X9: once a create of a FamilyHistory or an Address has returned, any
    further create under the same identifier, whatever its other fields,
    fails with HTTP 400 and leaves the world as it was. *)
Theorem create_twice_conflicts (w : World) :
  (∀ payload again r w',
     create_family_history payload w = (Returned r, w') →
     FamilyHistoryCreate.id again = FamilyHistoryCreate.id payload →
     create_family_history again w' =
       (Raised (HTTPException 400 "Family History with this ID already exists"),
        w')) ∧
  (∀ payload again r w',
     create_address payload w = (Returned r, w') →
     AddressCreate.id again = AddressCreate.id payload →
     create_address again w' =
       (Raised (HTTPException 400 "Address with this ID already exists"), w')).
Proof.
  split; intros payload again r w' Hrun Hid.
  - rewrite create_family_history_effect in Hrun. case_match; simplify_eq.
    apply create_family_history_duplicate. rewrite Hid. cbn.
    rewrite lookup_insert_eq. by eexists.
  - rewrite create_address_effect in Hrun. case_match; simplify_eq.
    apply create_address_duplicate. rewrite Hid. cbn.
    rewrite lookup_insert_eq. by eexists.
Qed.

Lemma create_twice_conflicts_witness :
  ∃ r w',
    create_family_history
      (FamilyHistoryCreate.mk 8 (Some "asthma") None None None) sample_world =
      (Returned r, w') ∧
    create_family_history
      (FamilyHistoryCreate.mk 8 None (Some "migraine") None None) w' =
      (Raised (HTTPException 400 "Family History with this ID already exists"),
       w').
Proof.
  destruct (create_twice_conflicts sample_world) as (Hf & _).
  assert (∃ r w',
            create_family_history
              (FamilyHistoryCreate.mk 8 (Some "asthma") None None None)
              sample_world = (Returned r, w')) as (r & w' & Hrun).
  { eexists _, _. vm_compute. reflexivity. }
  exists r, w'. split; [exact Hrun|].
  exact (Hf _ (FamilyHistoryCreate.mk 8 None (Some "migraine") None None)
           _ _ Hrun eq_refl).
Defined.

(** One request removes no key of any dictionary. *)
Lemma serve_keeps_keys (q : request) (w : World) :
  (∀ k, is_Some (family_histories w !! k) →
        is_Some (family_histories (serve q w).2 !! k)) ∧
  (∀ k, is_Some (account_balances w !! k) →
        is_Some (account_balances (serve q w).2 !! k)) ∧
  (∀ k, is_Some (addresses w !! k) → is_Some (addresses (serve q w).2 !! k)) ∧
  (∀ k, is_Some (persons w !! k) → is_Some (persons (serve q w).2 !! k)).
Proof.
  destruct q; serve_cases; repeat case_match; simplify_eq/=;
    repeat split; intros k' Hk'; try done;
    rewrite lookup_insert_is_Some'; by right.
Qed.

(** X10: no request ever removes a record: an identifier that is a key of
    a dictionary is still a key of it after any sequence of requests, so a
    get that has once returned never fails with 404 later on. *)
Theorem keys_never_removed (qs : list request) (w : World) :
  (∀ k, is_Some (family_histories w !! k) →
        is_Some (family_histories (serve_all qs w) !! k)) ∧
  (∀ k, is_Some (account_balances w !! k) →
        is_Some (account_balances (serve_all qs w) !! k)) ∧
  (∀ k, is_Some (addresses w !! k) →
        is_Some (addresses (serve_all qs w) !! k)) ∧
  (∀ k, is_Some (persons w !! k) → is_Some (persons (serve_all qs w) !! k)).
Proof.
  revert w. induction qs as [|q qs IH]; intros w; [done|].
  destruct (serve_keeps_keys q w) as (Hf & Hb & Ha & Hp).
  destruct (IH (serve q w).2) as (IHf & IHb & IHa & IHp).
  cbn [serve_all]. repeat split; intros k Hk; auto.
Qed.

(** ** Invariants of the reachable worlds *)

Lemma serve_keeps_balances_validated (q : request) (w : World) :
  balances_validated w → balances_validated (serve q w).2.
Proof.
  intros Hv.
  destruct q; serve_cases; repeat case_match; simplify_eq/=;
    intros k' r Hk'; cbn in Hk'; try (by eapply Hv).
  all: apply lookup_insert_Some in Hk' as [[<- <-]|[_ Hk']]; [|by eapply Hv].
  all: cbn; eauto.
Qed.

Lemma stamped_mono e calls calls' created updated :
  stamped e calls created updated → (calls ≤ calls')%nat →
  stamped e calls' created updated.
Proof. intros (n & Hn & Hc & Hu) Hle. exists n. split; [lia|done]. Qed.

Ltac stamped_entry Hsrc Hts :=
  let k := fresh "k" in let r := fresh "r" in let Hk := fresh "Hk" in
  intros k r Hk; cbn in Hk;
  try (apply lookup_insert_Some in Hk as [[<- <-]|[_ Hk]]);
  first
    [ eapply stamped_mono; [eapply Hts; exact Hk | cbn; lia]
    | cbn; eapply Hts; eassumption
    | eexists; cbn; unfold first_reading, second_reading; rewrite Hsrc;
      split; [|split; reflexivity]; lia ].

Lemma serve_keeps_timestamps (e : Env) (q : request) (w : World) :
  timestamps_from_clock e w → timestamps_from_clock e (serve q w).2.
Proof.
  intros (Hsrc & Hf & Hb & Ha & Hp).
  destruct q; serve_cases; repeat case_match; simplify_eq/=.
  all: split; [exact Hsrc|].
  all: split; [stamped_entry Hsrc Hf|].
  all: split; [stamped_entry Hsrc Hb|].
  all: split; [stamped_entry Hsrc Ha|stamped_entry Hsrc Hp].
Qed.

(** X11: in every world that the application can reach from its empty
    start, every stored account balance holds a float (the Read model
    validates each record before it is stored); hence a patch with an
    empty body of a stored account balance always returns the stored
    record and changes nothing. *)
Theorem reachable_balances_validated (e : Env) (w : World) :
  reachable e w →
  balances_validated w ∧
  ∀ k current update,
    account_balances w !! k = Some current →
    AccountBalanceUpdate.model_fields_set update = ∅ →
    update_account_balance k update w = (Returned current, w).
Proof.
  intros Hreach.
  assert (balances_validated w) as Hv.
  { induction Hreach as [|q w _ IH]; [by intros k r Hk|].
    by apply serve_keeps_balances_validated. }
  split; [exact Hv|]. intros k cur u Hk Hfs.
  destruct (Hv k cur Hk) as [x Hx].
  rewrite (update_account_balance_stored _ _ cur) by done.
  unfold AccountBalanceRead_patched. rewrite Hfs, !overlay_empty.
  destruct cur, w; cbn in *. subst. by rewrite insert_id.
Qed.

Lemma reachable_balances_validated_witness :
  balances_validated one_balance_world ∧
  update_account_balance 3 (AccountBalanceUpdate.mk 0 None ∅) one_balance_world =
    (Returned (AccountBalanceRead.mk 3 (Some 42.5%float) 0 1), one_balance_world).
Proof.
  destruct (reachable_balances_validated sample_env one_balance_world
              (reachable_serve _ _ _ (reachable_initial _))) as [Hv Hpatch].
  split; [exact Hv|].
  exact (Hpatch 3%N (AccountBalanceRead.mk 3 (Some 42.5%float) 0 1)
           (AccountBalanceUpdate.mk 0 None ∅) eq_refl eq_refl).
Defined.

(** X12: in every reachable world the [created_at] and [updated_at] of
    every stored record, in each store, are two successive readings of the
    clock taken when the record was created, however many patches
    followed; so, if the clock never runs backwards, [created_at] is never
    later than [updated_at]. *)
Theorem reachable_timestamps (e : Env) (w : World) :
  reachable e w →
  timestamps_from_clock e w ∧
  (clock_monotone e →
   (∀ k r, family_histories w !! k = Some r →
      (FamilyHistoryRead.created_at r ≤ FamilyHistoryRead.updated_at r)%Z) ∧
   (∀ k r, account_balances w !! k = Some r →
      (AccountBalanceRead.created_at r ≤ AccountBalanceRead.updated_at r)%Z) ∧
   (∀ k r, addresses w !! k = Some r →
      (AddressRead.created_at r ≤ AddressRead.updated_at r)%Z) ∧
   (∀ k r, persons w !! k = Some r →
      (PersonRead.created_at r ≤ PersonRead.updated_at r)%Z)).
Proof.
  intros Hreach.
  assert (timestamps_from_clock e w) as Hts.
  { induction Hreach as [|q w _ IH]; [|by apply serve_keeps_timestamps].
    split; [reflexivity|]. by repeat split; intros k r Hk. }
  split; [exact Hts|]. intros Hmono.
  destruct Hts as (_ & Hf & Hb & Ha & Hp).
  repeat split; intros k r Hk.
  - destruct (Hf k r Hk) as (n & _ & -> & ->). apply Hmono. lia.
  - destruct (Hb k r Hk) as (n & _ & -> & ->). apply Hmono. lia.
  - destruct (Ha k r Hk) as (n & _ & -> & ->). apply Hmono. lia.
  - destruct (Hp k r Hk) as (n & _ & -> & ->). apply Hmono. lia.
Qed.

Lemma reachable_timestamps_witness :
  timestamps_from_clock sample_env one_history_world ∧
  family_histories one_history_world !! 7%N =
    Some (FamilyHistoryRead.mk 7 (Some "IBS") None None None 0 1) ∧
  (FamilyHistoryRead.created_at
     (FamilyHistoryRead.mk 7 (Some "IBS") None None None 0 1) ≤
   FamilyHistoryRead.updated_at
     (FamilyHistoryRead.mk 7 (Some "IBS") None None None 0 1))%Z.
Proof.
  destruct (reachable_timestamps sample_env one_history_world
              (reachable_serve _ _ _ (reachable_initial _))) as [Hts Hle].
  assert (clock_monotone sample_env) as Hmono.
  { intros i j Hij. cbn. lia. }
  destruct (Hle Hmono) as (Hf & _).
  split; [exact Hts|]. split; [reflexivity|].
  exact (Hf 7%N _ eq_refl).
Defined.


(** ** Listings *)

Lemma eq_filter_own {A} (x : option A) : eq_filter x x.
Proof. by destruct x. Qed.

Lemma eqb_nan (x : float) : PrimFloat.eqb x nan = false.
Proof.
  rewrite FloatAxioms.eqb_spec.
  replace (FloatOps.Prim2SF nan) with S754_nan by reflexivity.
  unfold SFeqb, SFcompare. by destruct (FloatOps.Prim2SF x).
Qed.

Lemma filter_none {A} (P : A → Prop) `{!∀ x, Decision (P x)} (l : list A) :
  (∀ x, ¬ P x) → filter P l = [].
Proof.
  intros Hno. destruct (filter P l) as [|x l'] eqn:Hl; [done|].
  assert (x ∈ filter P l) as Hin by (rewrite Hl; left).
  apply list_elem_of_filter in Hin as [HP _]. by destruct (Hno x).
Qed.

(** X14: a record that a create has just returned is found by the
    listing of its store when the filters are the record's own field
    values (a null field giving no filter).  For an account balance this
    needs the balance to equal itself as an IEEE double. *)
Theorem create_then_list (w : World) :
  (∀ payload r w',
     create_family_history payload w = (Returned r, w') →
     ∃ results,
       get_family_histories (FamilyHistoryRead.father r)
         (FamilyHistoryRead.mother r) (FamilyHistoryRead.sister r)
         (FamilyHistoryRead.brother r) w' = (Returned results, w') ∧
       r ∈ results) ∧
  (∀ payload r w' x,
     create_account_balance payload w = (Returned r, w') →
     AccountBalanceRead.account_balance r = Some x →
     PrimFloat.eqb x x = true →
     ∃ results,
       get_account_balance (Some x) w' = (Returned results, w') ∧ r ∈ results) ∧
  (∀ payload r w',
     create_address payload w = (Returned r, w') →
     ∃ results,
       list_addresses (AddressRead.street r) (AddressRead.city r)
         (AddressRead.state r) (AddressRead.postal_code r)
         (AddressRead.country r) w' = (Returned results, w') ∧
       r ∈ results).
Proof.
  repeat apply conj.
  - intros payload r w' Hrun.
    rewrite create_family_history_effect in Hrun. case_match; simplify_eq.
    edestruct get_family_histories_run as (results & Hlist & Hin).
    exists results. split; [exact Hlist|]. apply Hin. split.
    + eexists. cbn. apply lookup_insert_eq.
    + repeat split; apply eq_filter_own.
  - intros payload r w' x Hrun Hx Hself.
    rewrite create_account_balance_run in Hrun. case_match; simplify_eq.
    edestruct get_account_balance_run as (results & Hlist & Hin).
    exists results. split; [exact Hlist|]. apply Hin. split.
    + eexists. cbn. apply lookup_insert_eq.
    + exists x. by split.
  - intros payload r w' Hrun.
    rewrite create_address_effect in Hrun. case_match; simplify_eq.
    edestruct list_addresses_run as (results & Hlist & Hin).
    exists results. split; [exact Hlist|]. apply Hin. split.
    + eexists. cbn. apply lookup_insert_eq.
    + repeat split; apply eq_filter_own.
Qed.

Lemma create_then_list_witness :
  ∃ r w' results,
    create_account_balance (AccountBalanceCreate.mk 4 (Some 42.5%float))
      sample_world = (Returned r, w') ∧
    get_account_balance (Some 42.5%float) w' = (Returned results, w') ∧
    r ∈ results.
Proof.
  destruct (create_then_list sample_world) as (_ & Hb & _).
  assert (∃ r w',
            create_account_balance (AccountBalanceCreate.mk 4 (Some 42.5%float))
              sample_world = (Returned r, w') ∧
            AccountBalanceRead.account_balance r = Some 42.5%float)
    as (r & w' & Hrun & Hx).
  { eexists _, _. split; [vm_compute; reflexivity | reflexivity]. }
  destruct (Hb _ r w' 42.5%float Hrun Hx eq_refl) as (results & Hlist & Hin).
  exists r, w', results. split; [exact Hrun|]. split; [exact Hlist | exact Hin].
Defined.

(** X15: a NaN balance filter matches nothing: the listing of account
    balances filtered by NaN is empty in every world, also when a stored
    balance is NaN, because the comparison is that of IEEE doubles. *)
Theorem list_balances_by_nan (w : World) :
  get_account_balance (Some nan) w = (Returned [], w).
Proof.
  unfold get_account_balance. rewrite bind_run. cbn.
  rewrite filter_none; [done|].
  intros p. unfold balance_eq.
  destruct (AccountBalanceRead.account_balance p); [|tauto].
  rewrite eqb_nan. tauto.
Qed.

(** X16: whatever the filters, a listing is a sublist of the listing
    without filters: the filters only drop records, they neither reorder
    nor repeat them, and the result is no longer than the store is large. *)
Theorem listing_is_sublist (w : World) :
  (∀ father mother sister brother, ∃ results all,
     get_family_histories father mother sister brother w = (Returned results, w) ∧
     get_family_histories None None None None w = (Returned all, w) ∧
     results `sublist_of` all ∧
     (List.length results ≤ size (family_histories w))%nat) ∧
  (∀ account_balance, ∃ results all,
     get_account_balance account_balance w = (Returned results, w) ∧
     get_account_balance None w = (Returned all, w) ∧
     results `sublist_of` all ∧
     (List.length results ≤ size (account_balances w))%nat) ∧
  (∀ street city state postal_code country, ∃ results all,
     list_addresses street city state postal_code country w =
       (Returned results, w) ∧
     list_addresses None None None None None w = (Returned all, w) ∧
     results `sublist_of` all ∧
     (List.length results ≤ size (addresses w))%nat) ∧
  (∀ uni first_name last_name email phone birth_date city country,
   ∃ results all,
     list_persons uni first_name last_name email phone birth_date city country w =
       (Returned results, w) ∧
     list_persons None None None None None None None None w = (Returned all, w) ∧
     results `sublist_of` all ∧
     (List.length results ≤ size (persons w))%nat).
Proof.
  assert (∀ {V} (m : gmap UUID V) (l : list V),
            l `sublist_of` (map_to_list m).*2 →
            l `sublist_of` (map_to_list m).*2 ∧ (List.length l ≤ size m)%nat)
    as Hlen.
  { intros V m l Hsub. split; [done|].
    apply sublist_length in Hsub.
    by rewrite length_fmap, length_map_to_list in Hsub. }
  repeat apply conj; intros; eexists _, _;
    (split; [reflexivity|]); (split; [reflexivity|]); apply Hlen;
    repeat case_match;
    repeat (etrans; [apply sublist_filter|]); done.
Qed.

(** ** Identifiers and keys *)

Ltac own_key Hinv Hq :=
  let k := fresh "k" in let r := fresh "r" in let Hk := fresh "Hk" in
  intros k r Hk; cbn in Hk;
  try (apply lookup_insert_Some in Hk as [[<- <-]|[_ Hk]]);
  first
    [ by eapply Hinv
    | reflexivity
    | cbn; rewrite ?overlay_unset by exact Hq; by eapply Hinv ].

Lemma serve_keeps_key_is_id (q : request) (w : World) :
  key_is_id w → no_body_id q → key_is_id (serve q w).2.
Proof.
  intros (Hf & Hb & Ha & Hp) Hq.
  destruct q; serve_cases; repeat case_match; simplify_eq/=.
  all: split; [own_key Hf Hq|].
  all: split; [own_key Hb Hq|].
  all: split; [own_key Ha Hq|own_key Hp Hq].
Qed.

(** X17: as long as no patch body provides an [id], every record sits
    under its own identifier: the invariant holds in the empty world and
    is kept by every create, by every patch of an Address or a Person, and
    by a patch of a FamilyHistory or an AccountBalance whose body has no
    [id]; hence, in such a run, the record that a get returns carries the
    identifier that was asked for. *)
Theorem key_is_id_without_body_id (e : Env) (qs : list request) :
  Forall no_body_id qs →
  key_is_id (serve_all qs (initial_world e)) ∧
  ∀ k r w',
    get_family_history k (serve_all qs (initial_world e)) = (Returned r, w') →
    FamilyHistoryRead.id r = k.
Proof.
  intros Hqs.
  assert (∀ w, key_is_id w → key_is_id (serve_all qs w)) as Hall.
  { induction Hqs as [|q qs Hq _ IH]; intros w Hw; [done|].
    cbn [serve_all]. apply IH. by apply serve_keeps_key_is_id. }
  assert (key_is_id (serve_all qs (initial_world e))) as Hinv.
  { apply Hall. by repeat split; intros k r Hk. }
  split; [exact Hinv|]. intros k r w' Hget.
  rewrite get_family_history_run in Hget. case_match; simplify_eq.
  by apply Hinv.
Qed.

Lemma key_is_id_without_body_id_witness :
  key_is_id
    (serve_all
       [PostFamilyHistory (FamilyHistoryCreate.mk 7 (Some "IBS") None None None);
        PatchFamilyHistory 7
          (FamilyHistoryUpdate.mk 0 None (Some "asthma") None None {[ "mother" ]})]
       (initial_world sample_env)).
Proof.
  refine (proj1 (key_is_id_without_body_id sample_env _ _)).
  repeat constructor. cbn. intros Hin%elem_of_singleton. discriminate.
Defined.

(** X18: a patch never creates a record: whatever its outcome, the keys
    of its dictionary after the call are the keys before it. *)
Theorem patch_never_creates (w : World) :
  (∀ k u, dom (family_histories (update_family_history k u w).2) =
          dom (family_histories w)) ∧
  (∀ k u, dom (account_balances (update_account_balance k u w).2) =
          dom (account_balances w)) ∧
  (∀ k u, dom (addresses (update_address k u w).2) = dom (addresses w)) ∧
  (∀ k u, dom (persons (update_person k u w).2) = dom (persons w)).
Proof.
  assert (∀ {V} (m : gmap UUID V) k v v',
            m !! k = Some v → dom (<[k := v']> m) = dom m) as Hdom.
  { intros V m k v v' Hk. rewrite dom_insert_L.
    apply (elem_of_dom_2 (D := gset N)) in Hk.
    apply subseteq_union_1_L. by apply singleton_subseteq_l. }
  repeat apply conj; intros k u.
  - rewrite update_family_history_effect. case_match; cbn; eauto.
  - rewrite update_account_balance_effect. repeat case_match; cbn; eauto.
  - rewrite update_address_effect. case_match; cbn; eauto.
  - rewrite update_person_effect. case_match; cbn; eauto.
Qed.

(** ** Composition of writes *)

(** X19: patches addressed to different identifiers of one store commute:
    served in either order they leave the same world, and the outcome of
    each is what it would have been without the other. *)
Theorem patches_commute (w : World) :
  (∀ k1 u1 k2 u2, k1 ≠ k2 →
     (update_family_history k2 u2 (update_family_history k1 u1 w).2).2 =
     (update_family_history k1 u1 (update_family_history k2 u2 w).2).2 ∧
     (update_family_history k2 u2 (update_family_history k1 u1 w).2).1 =
     (update_family_history k2 u2 w).1) ∧
  (∀ k1 u1 k2 u2, k1 ≠ k2 →
     (update_account_balance k2 u2 (update_account_balance k1 u1 w).2).2 =
     (update_account_balance k1 u1 (update_account_balance k2 u2 w).2).2 ∧
     (update_account_balance k2 u2 (update_account_balance k1 u1 w).2).1 =
     (update_account_balance k2 u2 w).1) ∧
  (∀ k1 u1 k2 u2, k1 ≠ k2 →
     (update_address k2 u2 (update_address k1 u1 w).2).2 =
     (update_address k1 u1 (update_address k2 u2 w).2).2 ∧
     (update_address k2 u2 (update_address k1 u1 w).2).1 =
     (update_address k2 u2 w).1) ∧
  (∀ k1 u1 k2 u2, k1 ≠ k2 →
     (update_person k2 u2 (update_person k1 u1 w).2).2 =
     (update_person k1 u1 (update_person k2 u2 w).2).2 ∧
     (update_person k2 u2 (update_person k1 u1 w).2).1 =
     (update_person k2 u2 w).1).
Proof.
  repeat apply conj; intros k1 u1 k2 u2 Hne.
  - rewrite (update_family_history_effect k1 u1 w),
      (update_family_history_effect k2 u2 w).
    destruct (family_histories w !! k1) as [c1|] eqn:H1,
      (family_histories w !! k2) as [c2|] eqn:H2; cbn [snd fst];
      rewrite !update_family_history_effect; cbn;
      rewrite ?lookup_insert_ne, ?H1, ?H2 by done; cbn;
      split; try done.
    by rewrite insert_insert_ne.
  - rewrite (update_account_balance_effect k1 u1 w),
      (update_account_balance_effect k2 u2 w).
    destruct (account_balances w !! k1) as [c1|] eqn:H1,
      (account_balances w !! k2) as [c2|] eqn:H2; cbn [snd fst];
      repeat case_match; cbn [snd fst];
      rewrite !update_account_balance_effect;
      cbn [account_balances set_account_balances];
      rewrite ?lookup_insert_ne, ?H1, ?H2 by done;
      repeat case_match; simplify_eq; cbn;
      split; try done.
    by rewrite insert_insert_ne.
  - rewrite (update_address_effect k1 u1 w), (update_address_effect k2 u2 w).
    destruct (addresses w !! k1) as [c1|] eqn:H1,
      (addresses w !! k2) as [c2|] eqn:H2; cbn [snd fst];
      rewrite !update_address_effect; cbn;
      rewrite ?lookup_insert_ne, ?H1, ?H2 by done; cbn;
      split; try done.
    by rewrite insert_insert_ne.
  - rewrite (update_person_effect k1 u1 w), (update_person_effect k2 u2 w).
    destruct (persons w !! k1) as [c1|] eqn:H1,
      (persons w !! k2) as [c2|] eqn:H2; cbn [snd fst];
      rewrite !update_person_effect; cbn;
      rewrite ?lookup_insert_ne, ?H1, ?H2 by done; cbn;
      split; try done.
    by rewrite insert_insert_ne.
Qed.

Lemma patches_commute_witness :
  (update_family_history 8
     (FamilyHistoryUpdate.mk 0 (Some "gout") None None None {[ "father" ]})
     (update_family_history 7
        (FamilyHistoryUpdate.mk 0 None None (Some "migraine") None {[ "sister" ]})
        two_histories_world).2).2 =
  (update_family_history 7
     (FamilyHistoryUpdate.mk 0 None None (Some "migraine") None {[ "sister" ]})
     (update_family_history 8
        (FamilyHistoryUpdate.mk 0 (Some "gout") None None None {[ "father" ]})
        two_histories_world).2).2.
Proof.
  destruct (patches_commute two_histories_world) as (Hf & _).
  refine (proj1 (Hf 7%N _ 8%N _ _)). discriminate.
Defined.

(** X20: the creates of an AccountBalance (with a balance) and of a Person
    under an identifier that is not yet stored return a record with the
    identifier and the fields of the payload, stamped with the next two
    readings of the clock, and the dictionary gains exactly that entry:
    its size grows by one. *)
Theorem create_unchecked_fresh_grows (w : World) :
  (∀ payload x,
     account_balances w !! AccountBalanceCreate.id payload = None →
     AccountBalanceCreate.account_balance payload = Some x →
     ∃ r w',
       create_account_balance payload w = (Returned r, w') ∧
       AccountBalanceRead.id r = AccountBalanceCreate.id payload ∧
       AccountBalanceRead.account_balance r = Some x ∧
       AccountBalanceRead.created_at r =
         utcnow_src (env w) (utcnow_calls (env w)) ∧
       AccountBalanceRead.updated_at r =
         utcnow_src (env w) (S (utcnow_calls (env w))) ∧
       account_balances w' =
         <[AccountBalanceCreate.id payload := r]> (account_balances w) ∧
       size (account_balances w') = S (size (account_balances w))) ∧
  (∀ payload,
     persons w !! PersonCreate.id payload = None →
     ∃ r w',
       create_person payload w = (Returned r, w') ∧
       PersonRead.id r = PersonCreate.id payload ∧
       PersonRead.uni r = PersonCreate.uni payload ∧
       PersonRead.first_name r = PersonCreate.first_name payload ∧
       PersonRead.last_name r = PersonCreate.last_name payload ∧
       PersonRead.email r = PersonCreate.email payload ∧
       PersonRead.phone r = PersonCreate.phone payload ∧
       PersonRead.birth_date r = PersonCreate.birth_date payload ∧
       PersonRead.addresses r = PersonCreate.addresses payload ∧
       PersonRead.created_at r = utcnow_src (env w) (utcnow_calls (env w)) ∧
       PersonRead.updated_at r =
         utcnow_src (env w) (S (utcnow_calls (env w))) ∧
       persons w' = <[PersonCreate.id payload := r]> (persons w) ∧
       size (persons w') = S (size (persons w))).
Proof.
  split.
  - intros payload x Hfresh Hx. eexists _, _.
    rewrite create_account_balance_run, Hx.
    split; [reflexivity|]. split; [reflexivity|]. split; [exact Hx|].
    repeat (split; [reflexivity|]). cbn. by apply map_size_insert_None.
  - intros payload Hfresh. eexists _, _. rewrite create_person_run.
    split; [reflexivity|]. repeat (split; [reflexivity|]).
    cbn. by apply map_size_insert_None.
Qed.

Lemma create_unchecked_fresh_grows_witness :
  ∃ r w',
    create_account_balance (AccountBalanceCreate.mk 4 (Some 42.5%float))
      sample_world = (Returned r, w') ∧
    AccountBalanceRead.account_balance r = Some 42.5%float ∧
    size (account_balances w') = 2%nat.
Proof.
  destruct (create_unchecked_fresh_grows sample_world) as (Hb & _).
  destruct (Hb (AccountBalanceCreate.mk 4 (Some 42.5%float)) 42.5%float
              eq_refl eq_refl)
    as (r & w' & Hrun & _ & Hx & _ & _ & _ & Hsize).
  exists r, w'. split; [exact Hrun|]. split; [exact Hx | exact Hsize].
Defined.
